(** * jor1k worker: the [System] orchestration core ([js/worker/system.js])

    A shallow embedding of the scheduler (run quantum, idle/wake state
    machine), the interrupt router and the boot image loader of
    [system.js], with the collaborators the file only calls (CPU, timer,
    devices, RAM, ELF and bzip2 readers, the host's timers and clock)
    taken as contracts.

    Conventions.
    - JavaScript numbers that hold counts, cycles, addresses and
      milliseconds are [Z] (exact below 2^53); the one real-valued
      computation, the idle wait, uses binary64 floats.
    - A [Uint8Array] is a [list Z] of fixed length: reading outside it
      gives [None] ([undefined]), writing outside it does nothing, and a
      stored value is reduced modulo 256.
    - Effects on the collaborators are threaded through their abstract
      states; every call on a contract is also recorded, newest first, in
      the ghost field [calls]. *)

From Stdlib Require Import ZArith Floats Uint63 Lia Bool String Ascii.
From stdpp Require Import base list.

Local Open Scope Z_scope.

(** ** JavaScript primitives used by the file *)

Module JS.

(** [ToInt32], the conversion applied to the left operand of [>>]. *)
Definition ToInt32 (x : Z) : Z := (x + 2 ^ 31) mod 2 ^ 32 - 2 ^ 31.

(** The operator [x >> n] on integral numbers. *)
Definition sar (x n : Z) : Z := Z.shiftr (ToInt32 x) n.

(** [ToUint8], applied to every value stored in a [Uint8Array]. *)
Definition ToUint8 (x : Z) : Z := x mod 256.

(** [a[i] = v] on a [Uint8Array]. *)
Definition store (a : list Z) (i : nat) (v : Z) : list Z := <[i := ToUint8 v]> a.

(** [a[i] === c] on a [Uint8Array]: false when [a[i]] is [undefined]. *)
Definition byte_is (a : list Z) (i : nat) (c : Z) : bool :=
  match a !! i with
  | Some v => v =? c
  | None => false
  end.

(** The value read by [a[i]] when it is stored into another typed array:
    [undefined] becomes 0. *)
Definition load (a : list Z) (i : nat) : Z := default 0 (a !! i).

(** [for (i = 0; i < n; i++) dst[i] = src[i]] between typed arrays. *)
Definition copy_loop (src dst : list Z) (n : nat) : list Z :=
  fold_left (fun d i => store d i (load src i)) (seq 0 n) dst.

(** [new Uint8Array(n)]. *)
Definition new_Uint8Array (n : nat) : list Z := replicate n 0.

(** A number as a binary64 float (exact below 2^53). *)
Definition Z2float (z : Z) : float :=
  if z <? 0 then PrimFloat.opp (PrimFloat.of_uint63 (Uint63.of_Z (- z)))
  else PrimFloat.of_uint63 (Uint63.of_Z z).

(** [Math.floor] on a binary64 float; zeros, infinities and NaN are
    returned unchanged. *)
Definition Math_floor (x : float) : float :=
  match Prim2SF x with
  | S754_finite sign m e =>
      if 0 <=? e then x
      else
        let d := 2 ^ (- e) in
        let q := Z.pos m / d in
        if sign then
          (if Z.pos m mod d =? 0 then Z2float (- q) else Z2float (- (q + 1)))
        else Z2float q
  | _ => x
  end.

(** [str.charCodeAt(i)] for every [i]. *)
Definition charCodes (str : string) : list Z :=
  map (fun c => Z.of_N (N_of_ascii c)) (list_ascii_of_string str).

End JS.

(** ** Data *)

(** [SYSTEM_RUN = 0x1], [SYSTEM_STOP = 0x2], [SYSTEM_HALT = 0x3] (idle). *)
Inductive SystemStatus := SYSTEM_RUN | SYSTEM_STOP | SYSTEM_HALT.

Definition status_eqb (a b : SystemStatus) : bool :=
  match a, b with
  | SYSTEM_RUN, SYSTEM_RUN | SYSTEM_STOP, SYSTEM_STOP | SYSTEM_HALT, SYSTEM_HALT => true
  | _, _ => false
  end.

(** The byte view [ram.uint8mem] of the emulated memory. *)
Record RAM := mkRAM { uint8mem : list Z }.

(** The deferred wake armed by [HandleHalt]: the delay given to
    [setTimeout] and the [delta] captured by its callback. *)
Record Wake := mkWake { wake_delay : float; wake_delta : Z }.

(** The argument of the [Init] command. *)
Record SystemConfig := mkConfig {
  cfg_memorysize : Z;
  cfg_ncores : Z;
  cfg_arch : string;
  cfg_cpu : string }.

(** What [message.Send] carries. *)
Inductive Payload := PNumber (n : Z) | PChars (chars : list Z).

(** What [message.Debug] reports. *)
Inductive Diagnostic :=
| DebugCreateCPUFailed
| DebugAllocate (mb : Z)
| DebugKernelLoaded (length : nat)
| DebugStartingEmulation
| DebugIdleWarning (mswait : float)
| DebugCPUState.

(** A call made on a collaborator. *)
Inductive Call :=
| CpuRaiseInterrupt (line cpuid : Z)
| CpuClearInterrupt (line cpuid : Z)
| CpuProgressTime (delta : Z)
| CpuStep (budget hint : Z)
| CpuReset
| CpuAnalyzeImage
| CpuSwitchImplementation (cpuname : string)
| TimerUpdate (totalsteps ticks : Z) (gotoidle : bool)
| UartStep (n : nat)
| DevicesReset
| HostSetTimeout (handle : nat) (w : Wake)
| HostClearTimeout (handle : option nat)
| HostFire (handle : nat)
| HostLoadBinaryResource (url : string)
| MessageSend (command : string) (data : Payload)
| MessageDebug (d : Diagnostic).

(** How a call that may throw ended, with the state it left. *)
Inductive Outcome (A : Type) := Returned (a : A) | Thrown (a : A).
Arguments Returned {A} a.
Arguments Thrown {A} a.

Definition outcome_state {A} (o : Outcome A) : A :=
  match o with Returned a | Thrown a => a end.

Definition returned {A} (o : Outcome A) : bool :=
  match o with Returned _ => true | Thrown _ => false end.

(** ** Contracts of the collaborators *)

(** The CPU ([or1k], [riscv]).  A constructor gives [None] when it
    throws.  [cpu_Step budget hint] returns the unused part of the
    budget; the CPU reads and writes the RAM it was built on while it
    steps, resets or analyses the image. *)
Class CPUContract (CPU : Type) := {
  OR1KCPU_new : string -> RAM -> Z -> option CPU;
  RISCVCPU_new : string -> RAM -> Z -> option CPU;
  cpu_Step : Z -> Z -> CPU -> RAM -> Z * CPU * RAM;
  cpu_Reset : CPU -> RAM -> CPU * RAM;
  cpu_AnalyzeImage : CPU -> RAM -> CPU * RAM;
  cpu_RaiseInterrupt : Z -> Z -> CPU -> CPU;
  cpu_ClearInterrupt : Z -> Z -> CPU -> CPU;
  cpu_ProgressTime : Z -> CPU -> CPU;
  cpu_GetTicks : CPU -> Z;
  cpu_GetTimeToNextInterrupt : CPU -> Z;
  cpu_littleendian : CPU -> bool;
  cpu_switchImplementation : string -> CPU -> CPU }.

(** [timer.js]. *)
Class TimerContract (Timer : Type) := {
  Timer_new : Z -> Z -> Timer;
  instructionsperloop : Timer -> Z;
  timercyclesperinstruction : Timer -> Z;
  correction : Timer -> float;
  timer_Update : Z -> Z -> bool -> Timer -> Timer }.

(** The devices other than the CPU.  [uartdev n] tells whether
    [this.uartdev0] / [this.uartdev1] exists; a UART that steps may raise
    or clear lines of the CPU. *)
Class DevicesContract (Devices CPU : Type) := {
  Devices_new : string -> Devices;
  uartdev : nat -> Devices -> bool;
  uartdev_Step : nat -> Devices -> CPU -> Devices * CPU;
  devices_Reset : Devices -> Devices }.

(** [ram.js], [elf.js], [bzip2.js] and [utils.js].  The two extraction
    entries are the two ways the file calls [elf.Extract]: on the RAM
    object and on its byte view; the flag tells whether the call
    returned (true) or threw.  [bzip2_simple] gives the bytes handed, in
    order, to the output callback. *)
Class LoaderContract := {
  RAM_new : Z -> Z -> RAM;
  ram_Little2Big : nat -> RAM -> RAM;
  elf_IsELF : list Z -> bool;
  elf_Extract : list Z -> RAM -> RAM * bool;
  elf_Extract_bytes : list Z -> list Z -> list Z * bool;
  bzip2_IsBZIP2 : list Z -> bool;
  bzip2_simple : list Z -> list Z * bool;
  utils_GetMilliseconds : nat -> Z }.

Section SystemModel.

Context {CPU Timer Devices : Type}.
Context {cpu_contract : CPUContract CPU} {timer_contract : TimerContract Timer}.
Context {devices_contract : DevicesContract Devices CPU} {loader_contract : LoaderContract}.

(** The [System] object, followed by the part of the host it acts on:
    the pending timeouts with the next free handle, the number of clock
    readings taken so far, and the ghost record of calls. *)
Record System := mkSystem {
  status : SystemStatus;
  memorysize : Z;
  ncores : Z;
  ram : RAM;
  cpu : CPU;
  devices : Devices;
  timer : Timer;
  ips : Z;
  idletime : Z;
  idlemaxwait : Z;
  ticksperms : Z;
  loopspersecond : Z;
  idletimeouthandle : option nat;
  timeouts : list (nat * Wake);
  nexthandle : nat;
  clockreads : nat;
  calls : list Call }.

Definition set_status (v : SystemStatus) (s : System) : System :=
  {| status := v; memorysize := memorysize s; ncores := ncores s; ram := ram s; cpu := cpu s;
     devices := devices s; timer := timer s; ips := ips s; idletime := idletime s;
     idlemaxwait := idlemaxwait s; ticksperms := ticksperms s;
     loopspersecond := loopspersecond s; idletimeouthandle := idletimeouthandle s;
     timeouts := timeouts s; nexthandle := nexthandle s; clockreads := clockreads s;
     calls := calls s |}.

Definition set_memorysize (v : Z) (s : System) : System :=
  {| status := status s; memorysize := v; ncores := ncores s; ram := ram s; cpu := cpu s;
     devices := devices s; timer := timer s; ips := ips s; idletime := idletime s;
     idlemaxwait := idlemaxwait s; ticksperms := ticksperms s;
     loopspersecond := loopspersecond s; idletimeouthandle := idletimeouthandle s;
     timeouts := timeouts s; nexthandle := nexthandle s; clockreads := clockreads s;
     calls := calls s |}.

Definition set_ncores (v : Z) (s : System) : System :=
  {| status := status s; memorysize := memorysize s; ncores := v; ram := ram s; cpu := cpu s;
     devices := devices s; timer := timer s; ips := ips s; idletime := idletime s;
     idlemaxwait := idlemaxwait s; ticksperms := ticksperms s;
     loopspersecond := loopspersecond s; idletimeouthandle := idletimeouthandle s;
     timeouts := timeouts s; nexthandle := nexthandle s; clockreads := clockreads s;
     calls := calls s |}.

Definition set_ram (v : RAM) (s : System) : System :=
  {| status := status s; memorysize := memorysize s; ncores := ncores s; ram := v;
     cpu := cpu s; devices := devices s; timer := timer s; ips := ips s;
     idletime := idletime s; idlemaxwait := idlemaxwait s; ticksperms := ticksperms s;
     loopspersecond := loopspersecond s; idletimeouthandle := idletimeouthandle s;
     timeouts := timeouts s; nexthandle := nexthandle s; clockreads := clockreads s;
     calls := calls s |}.

Definition set_cpu (v : CPU) (s : System) : System :=
  {| status := status s; memorysize := memorysize s; ncores := ncores s; ram := ram s;
     cpu := v; devices := devices s; timer := timer s; ips := ips s; idletime := idletime s;
     idlemaxwait := idlemaxwait s; ticksperms := ticksperms s;
     loopspersecond := loopspersecond s; idletimeouthandle := idletimeouthandle s;
     timeouts := timeouts s; nexthandle := nexthandle s; clockreads := clockreads s;
     calls := calls s |}.

Definition set_devices (v : Devices) (s : System) : System :=
  {| status := status s; memorysize := memorysize s; ncores := ncores s; ram := ram s;
     cpu := cpu s; devices := v; timer := timer s; ips := ips s; idletime := idletime s;
     idlemaxwait := idlemaxwait s; ticksperms := ticksperms s;
     loopspersecond := loopspersecond s; idletimeouthandle := idletimeouthandle s;
     timeouts := timeouts s; nexthandle := nexthandle s; clockreads := clockreads s;
     calls := calls s |}.

Definition set_timer (v : Timer) (s : System) : System :=
  {| status := status s; memorysize := memorysize s; ncores := ncores s; ram := ram s;
     cpu := cpu s; devices := devices s; timer := v; ips := ips s; idletime := idletime s;
     idlemaxwait := idlemaxwait s; ticksperms := ticksperms s;
     loopspersecond := loopspersecond s; idletimeouthandle := idletimeouthandle s;
     timeouts := timeouts s; nexthandle := nexthandle s; clockreads := clockreads s;
     calls := calls s |}.

Definition set_ips (v : Z) (s : System) : System :=
  {| status := status s; memorysize := memorysize s; ncores := ncores s; ram := ram s;
     cpu := cpu s; devices := devices s; timer := timer s; ips := v; idletime := idletime s;
     idlemaxwait := idlemaxwait s; ticksperms := ticksperms s;
     loopspersecond := loopspersecond s; idletimeouthandle := idletimeouthandle s;
     timeouts := timeouts s; nexthandle := nexthandle s; clockreads := clockreads s;
     calls := calls s |}.

Definition set_idletime (v : Z) (s : System) : System :=
  {| status := status s; memorysize := memorysize s; ncores := ncores s; ram := ram s;
     cpu := cpu s; devices := devices s; timer := timer s; ips := ips s; idletime := v;
     idlemaxwait := idlemaxwait s; ticksperms := ticksperms s;
     loopspersecond := loopspersecond s; idletimeouthandle := idletimeouthandle s;
     timeouts := timeouts s; nexthandle := nexthandle s; clockreads := clockreads s;
     calls := calls s |}.

Definition set_idlemaxwait (v : Z) (s : System) : System :=
  {| status := status s; memorysize := memorysize s; ncores := ncores s; ram := ram s;
     cpu := cpu s; devices := devices s; timer := timer s; ips := ips s;
     idletime := idletime s; idlemaxwait := v; ticksperms := ticksperms s;
     loopspersecond := loopspersecond s; idletimeouthandle := idletimeouthandle s;
     timeouts := timeouts s; nexthandle := nexthandle s; clockreads := clockreads s;
     calls := calls s |}.

Definition set_ticksperms (v : Z) (s : System) : System :=
  {| status := status s; memorysize := memorysize s; ncores := ncores s; ram := ram s;
     cpu := cpu s; devices := devices s; timer := timer s; ips := ips s;
     idletime := idletime s; idlemaxwait := idlemaxwait s; ticksperms := v;
     loopspersecond := loopspersecond s; idletimeouthandle := idletimeouthandle s;
     timeouts := timeouts s; nexthandle := nexthandle s; clockreads := clockreads s;
     calls := calls s |}.

Definition set_loopspersecond (v : Z) (s : System) : System :=
  {| status := status s; memorysize := memorysize s; ncores := ncores s; ram := ram s;
     cpu := cpu s; devices := devices s; timer := timer s; ips := ips s;
     idletime := idletime s; idlemaxwait := idlemaxwait s; ticksperms := ticksperms s;
     loopspersecond := v; idletimeouthandle := idletimeouthandle s; timeouts := timeouts s;
     nexthandle := nexthandle s; clockreads := clockreads s; calls := calls s |}.

Definition set_idletimeouthandle (v : option nat) (s : System) : System :=
  {| status := status s; memorysize := memorysize s; ncores := ncores s; ram := ram s;
     cpu := cpu s; devices := devices s; timer := timer s; ips := ips s;
     idletime := idletime s; idlemaxwait := idlemaxwait s; ticksperms := ticksperms s;
     loopspersecond := loopspersecond s; idletimeouthandle := v; timeouts := timeouts s;
     nexthandle := nexthandle s; clockreads := clockreads s; calls := calls s |}.

Definition set_timeouts (v : list (nat * Wake)) (s : System) : System :=
  {| status := status s; memorysize := memorysize s; ncores := ncores s; ram := ram s;
     cpu := cpu s; devices := devices s; timer := timer s; ips := ips s;
     idletime := idletime s; idlemaxwait := idlemaxwait s; ticksperms := ticksperms s;
     loopspersecond := loopspersecond s; idletimeouthandle := idletimeouthandle s;
     timeouts := v; nexthandle := nexthandle s; clockreads := clockreads s; calls := calls s |}.

Definition set_nexthandle (v : nat) (s : System) : System :=
  {| status := status s; memorysize := memorysize s; ncores := ncores s; ram := ram s;
     cpu := cpu s; devices := devices s; timer := timer s; ips := ips s;
     idletime := idletime s; idlemaxwait := idlemaxwait s; ticksperms := ticksperms s;
     loopspersecond := loopspersecond s; idletimeouthandle := idletimeouthandle s;
     timeouts := timeouts s; nexthandle := v; clockreads := clockreads s; calls := calls s |}.

Definition set_clockreads (v : nat) (s : System) : System :=
  {| status := status s; memorysize := memorysize s; ncores := ncores s; ram := ram s;
     cpu := cpu s; devices := devices s; timer := timer s; ips := ips s;
     idletime := idletime s; idlemaxwait := idlemaxwait s; ticksperms := ticksperms s;
     loopspersecond := loopspersecond s; idletimeouthandle := idletimeouthandle s;
     timeouts := timeouts s; nexthandle := nexthandle s; clockreads := v; calls := calls s |}.

Definition set_calls (v : list Call) (s : System) : System :=
  {| status := status s; memorysize := memorysize s; ncores := ncores s; ram := ram s;
     cpu := cpu s; devices := devices s; timer := timer s; ips := ips s;
     idletime := idletime s; idlemaxwait := idlemaxwait s; ticksperms := ticksperms s;
     loopspersecond := loopspersecond s; idletimeouthandle := idletimeouthandle s;
     timeouts := timeouts s; nexthandle := nexthandle s; clockreads := clockreads s;
     calls := v |}.


(** ** Host primitives *)

Definition emit (c : Call) (s : System) : System := set_calls (c :: calls s) s.

(** [utils.GetMilliseconds()]: the next reading of the wall clock. *)
Definition GetMilliseconds (s : System) : Z * System :=
  (utils_GetMilliseconds (clockreads s), set_clockreads (S (clockreads s)) s).

(** [setTimeout(callback, ms)]: the host hands out a fresh handle. *)
Definition setTimeout (w : Wake) (s : System) : nat * System :=
  let h := nexthandle s in
  (h, emit (HostSetTimeout h w)
        (set_nexthandle (S h) (set_timeouts ((h, w) :: timeouts s) s))).

Definition cancel (h : nat) (l : list (nat * Wake)) : list (nat * Wake) :=
  List.filter (fun e => negb (Nat.eqb (fst e) h)) l.

(** [clearTimeout(handle)]: nothing happens for [undefined] or for a
    handle that is not pending. *)
Definition clearTimeout (handle : option nat) (s : System) : System :=
  emit (HostClearTimeout handle)
    match handle with
    | Some h => set_timeouts (cancel h (timeouts s)) s
    | None => s
    end.

Definition pending (h : nat) (s : System) : option Wake :=
  snd <$> List.find (fun e => Nat.eqb (fst e) h) (timeouts s).

(** [message.Send("tty0", chars)] with the character codes of [str]. *)
Definition SendStringToTerminal (str : string) (s : System) : System :=
  emit (MessageSend "tty0" (PChars (JS.charCodes str))) s.

(** ** Interrupt router: the directed operations and [ClearInterrupt] *)

Definition ClearInterrupt (line : Z) (s : System) : System :=
  emit (CpuClearInterrupt line (-1)) (set_cpu (cpu_ClearInterrupt line (-1) (cpu s)) s).

Definition RaiseSoftInterrupt (line cpuid : Z) (s : System) : System :=
  emit (CpuRaiseInterrupt line cpuid) (set_cpu (cpu_RaiseInterrupt line cpuid (cpu s)) s).

Definition ClearSoftInterrupt (line cpuid : Z) (s : System) : System :=
  emit (CpuClearInterrupt line cpuid) (set_cpu (cpu_ClearInterrupt line cpuid (cpu s)) s).

(** ** Scheduler *)

(** The wait computed by [HandleHalt]:
    [Math.floor(delta / this.ticksperms / this.timer.correction + 0.5)]. *)
Definition mswait_of (delta : Z) (s : System) : float :=
  JS.Math_floor
    (JS.Z2float delta / JS.Z2float (ticksperms s) / correction (timer s) + 0.5)%float.

Definition HandleHalt (s : System) : System :=
  let delta := cpu_GetTimeToNextInterrupt (cpu s) in
  if delta =? -1 then s
  else
    let s := set_idlemaxwait delta s in
    let mswait := mswait_of delta s in
    if PrimFloat.leb mswait 1 then s
    else
      let s := if PrimFloat.ltb 1000 mswait
               then emit (MessageDebug (DebugIdleWarning mswait)) s else s in
      let '(now, s) := GetMilliseconds s in
      let s := set_idletime now s in
      let s := set_status SYSTEM_HALT s in
      let '(h, s) := setTimeout (mkWake mswait delta) s in
      set_idletimeouthandle (Some h) s.

(** [this.uartdevN && this.uartdevN.Step()]. *)
Definition uart_step (n : nat) (s : System) : System :=
  if uartdev n (devices s) then
    let '(d, c) := uartdev_Step n (devices s) (cpu s) in
    emit (UartStep n) (set_cpu c (set_devices d s))
  else s.

(** The quantum of [MainLoop], once the status was found to be
    [SYSTEM_RUN]: everything up to the decision to go idle. *)
Definition quantum (s : System) : bool * System :=
  let s := emit (MessageSend "execute" (PNumber 0)) s in
  let budget := instructionsperloop (timer s) in
  let hint := timercyclesperinstruction (timer s) in
  let '(stepsleft, c, r) := cpu_Step budget hint (cpu s) (ram s) in
  let s := emit (CpuStep budget hint) (set_ram r (set_cpu c s)) in
  let totalsteps := budget - stepsleft in
  let totalsteps := totalsteps + 1 in
  let s := set_ips (ips s + totalsteps) s in
  let s := uart_step 0 s in
  let s := uart_step 1 s in
  let gotoidle := negb (stepsleft =? 0) in
  let ticks := cpu_GetTicks (cpu s) in
  let s := emit (TimerUpdate totalsteps ticks gotoidle)
             (set_timer (timer_Update totalsteps ticks gotoidle (timer s)) s) in
  (gotoidle, s).

Definition MainLoop (s : System) : System :=
  if negb (status_eqb (status s) SYSTEM_RUN) then s
  else
    let '(gotoidle, s) := quantum s in
    if gotoidle then HandleHalt s else s.

(** The callback armed by [HandleHalt], with its captured [delta]. *)
Definition idle_callback (delta : Z) (s : System) : System :=
  if status_eqb (status s) SYSTEM_HALT then
    let s := set_status SYSTEM_RUN s in
    let s := emit (CpuProgressTime delta) (set_cpu (cpu_ProgressTime delta (cpu s)) s) in
    MainLoop s
  else s.

(** The host fires the pending timeout [h]; a handle that is not
    pending cannot fire. *)
Definition fire (h : nat) (s : System) : System :=
  match pending h s with
  | Some w =>
      idle_callback (wake_delta w)
        (emit (HostFire h) (set_timeouts (cancel h (timeouts s)) s))
  | None => s
  end.

Definition RaiseInterrupt (line : Z) (s : System) : System :=
  let s := emit (CpuRaiseInterrupt line (-1))
             (set_cpu (cpu_RaiseInterrupt line (-1) (cpu s)) s) in
  if status_eqb (status s) SYSTEM_HALT then
    let s := set_status SYSTEM_RUN s in
    let s := clearTimeout (idletimeouthandle s) s in
    let '(now, s) := GetMilliseconds s in
    let delta := (now - idletime s) * ticksperms s in
    let delta := if delta >? idlemaxwait s then idlemaxwait s else delta in
    let s := emit (CpuProgressTime delta) (set_cpu (cpu_ProgressTime delta (cpu s)) s) in
    MainLoop s
  else s.

(** ** Commands of the composition root *)

(** The handler registered for ["GetIPS"]. *)
Definition GetIPS (s : System) : System :=
  set_ips 0 (emit (MessageSend "GetIPS" (PNumber (ips s))) s).

Definition Reset (s : System) : System :=
  let s := set_status SYSTEM_STOP s in
  let '(c, r) := cpu_Reset (cpu s) (ram s) in
  let s := emit CpuReset (set_ram r (set_cpu c s)) in
  let s := emit DevicesReset (set_devices (devices_Reset (devices s)) s) in
  set_ips 0 s.

Definition ChangeCPU (cpuname : string) (s : System) : System :=
  emit (CpuSwitchImplementation cpuname)
    (set_cpu (cpu_switchImplementation cpuname (cpu s)) s).

Definition PrintState (s : System) : System :=
  emit (MessageDebug DebugCPUState) (uart_step 1 (uart_step 0 s)).

(** [CreateCPU]: a constructor that throws, or an unknown architecture,
    is reported and leaves [this.cpu] as it was. *)
Definition CreateCPU (cpuname arch : string) (s : System) : System :=
  let made :=
    if String.eqb arch "or1k" then OR1KCPU_new cpuname (ram s) (ncores s)
    else if String.eqb arch "riscv" then RISCVCPU_new cpuname (ram s) (ncores s)
    else None in
  match made with
  | Some c => set_cpu c s
  | None => emit (MessageDebug DebugCreateCPUFailed) s
  end.

Definition Init (system : SystemConfig) (s : System) : System :=
  let s := set_status SYSTEM_STOP s in
  let s := set_memorysize (cfg_memorysize system) s in
  let s := set_ncores (cfg_ncores system) s in
  let s := emit (MessageDebug (DebugAllocate (memorysize s))) s in
  let ramoffset := 0x100000 in
  let heap := memorysize s * 0x100000 in
  let s := set_memorysize (memorysize s - 1) s in
  let s := set_ram (RAM_new heap ramoffset) s in
  let s := CreateCPU (cfg_cpu system) (cfg_arch system) s in
  let s := set_devices (Devices_new (cfg_arch system)) s in
  let s := set_ips 0 s in
  let s := set_idletime 0 s in
  let s := set_idlemaxwait 0 s in
  let s := set_ticksperms 20000 s in
  let s := set_loopspersecond 100 s in
  set_timer (Timer_new (ticksperms s) (loopspersecond s)) s.


(** ** Boot loader *)

(** The eleven tests of [PatchKernel] at scan position [i]: the bytes
    of "memory\0" and the size field 01 F0 00 00 at offset 24. *)
Definition PatchKernel_found (m : list Z) (i : nat) : bool :=
  JS.byte_is m (i + 0) 0x6d && JS.byte_is m (i + 1) 0x65 && JS.byte_is m (i + 2) 0x6d
  && JS.byte_is m (i + 3) 0x6f && JS.byte_is m (i + 4) 0x72 && JS.byte_is m (i + 5) 0x79
  && JS.byte_is m (i + 6) 0x00
  && JS.byte_is m (i + 24) 0x01 && JS.byte_is m (i + 25) 0xF0
  && JS.byte_is m (i + 26) 0x00 && JS.byte_is m (i + 27) 0x00.

(** The four assignments made at a position that passed the tests. *)
Definition PatchKernel_write (msize : Z) (m : list Z) (i : nat) : list Z :=
  let m := JS.store m (i + 24) (JS.sar (msize * 0x100000) 24) in
  let m := JS.store m (i + 25) (JS.sar (msize * 0x100000) 16) in
  let m := JS.store m (i + 26) 0x00 in
  JS.store m (i + 27) 0x00.

Definition PatchKernel_step (msize : Z) (m : list Z) (i : nat) : list Z :=
  if PatchKernel_found m i then PatchKernel_write msize m i else m.

(** The scan [for (i = 0; i < length; i++)] over the bytes of memory. *)
Definition PatchKernel_scan (msize : Z) (length : nat) (m : list Z) : list Z :=
  fold_left (PatchKernel_step msize) (seq 0 length) m.

Definition PatchKernel (length : nat) (s : System) : System :=
  set_ram (mkRAM (PatchKernel_scan (memorysize s) length (uint8mem (ram s)))) s.

(** The output callback of [bzip2.simple]:
    [function(x){this.ram.uint8mem[length++] = x;}]. *)
Definition inflate_byte (st : list Z * nat) (x : Z) : list Z * nat :=
  (JS.store (fst st) (snd st) x, S (snd st)).

(** The first part of [OnKernelLoaded]: the image is put into memory
    according to its format.  The result is the memory and the local
    variable [length]. *)
Definition materialize (buffer8 : list Z) (r : RAM) : Outcome (RAM * nat) :=
  let length := List.length buffer8 in
  if elf_IsELF buffer8 then
    let '(r, ok) := elf_Extract buffer8 r in
    if ok then Returned (r, length) else Thrown (r, length)
  else if bzip2_IsBZIP2 buffer8 then
    let '(out, ok) := bzip2_simple buffer8 in
    let '(m, length) := fold_left inflate_byte out (uint8mem r, 0%nat) in
    if negb ok then Thrown (mkRAM m, length)
    else if elf_IsELF m then
      let temp := JS.copy_loop m (JS.new_Uint8Array length) length in
      let '(m, ok) := elf_Extract_bytes temp m in
      if ok then Returned (mkRAM m, length) else Thrown (mkRAM m, length)
    else Returned (mkRAM m, length)
  else
    Returned (mkRAM (JS.copy_loop buffer8 (uint8mem r) length), length).

(** The second part: [if (this.cpu.littleendian == false) { ... }]. *)
Definition normalize (length : nat) (s : System) : System :=
  if negb (cpu_littleendian (cpu s)) then
    let s := PatchKernel length s in
    set_ram (ram_Little2Big length (ram s)) s
  else s.

(** The last part: the kernel is reported, the CPU reset and started. *)
Definition commit (length : nat) (s : System) : System :=
  let s := emit (MessageDebug (DebugKernelLoaded length)) s in
  let s := SendStringToTerminal ("Booting" ++ String "013" (String "010" "")) s in
  let s := SendStringToTerminal
    "================================================================================" s in
  let '(c, r) := cpu_Reset (cpu s) (ram s) in
  let s := emit CpuReset (set_ram r (set_cpu c s)) in
  let '(c, r) := cpu_AnalyzeImage (cpu s) (ram s) in
  let s := emit CpuAnalyzeImage (set_ram r (set_cpu c s)) in
  let s := emit (MessageDebug DebugStartingEmulation) s in
  let s := set_status SYSTEM_RUN s in
  emit (MessageSend "execute" (PNumber 0)) s.

Definition OnKernelLoaded (buffer : list Z) (s : System) : Outcome System :=
  let s := SendStringToTerminal
    ("Decompressing kernel..." ++ String "013" (String "010" "")) s in
  match materialize buffer (ram s) with
  | Thrown (r, _) => Thrown (set_ram r s)
  | Returned (r, length) => Returned (commit length (normalize length (set_ram r s)))
  end.

(** [LoadImageAndStart]: a string is fetched by the host, which later
    calls [OnKernelLoaded] with the bytes; a buffer is loaded at once. *)
Definition LoadImageAndStart (url : string + list Z) (s : System) : Outcome System :=
  let s := SendStringToTerminal
    (String "013" "================================================================================") s in
  match url with
  | inl u =>
      let s := SendStringToTerminal
        (String "013" (String "010"
          ("Loading kernel and hard and basic file system from web server. Please wait ..."
           ++ String "013" (String "010" "")))) s in
      Returned (emit (HostLoadBinaryResource u) s)
  | inr buffer => OnKernelLoaded buffer s
  end.

(** ** The event loop *)

(** What can reach the system between two quanta: a command of the
    master thread, an interrupt operation called by a device, a loaded
    image, or a timeout that fires. *)
Inductive Event :=
| EvInit (system : SystemConfig)
| EvReset
| EvChangeCore (cpuname : string)
| EvLoadAndStart (url : string + list Z)
| EvKernelLoaded (buffer : list Z)
| EvExecute
| EvGetIPS
| EvPrintOnAbort
| EvRaiseInterrupt (line : Z)
| EvClearInterrupt (line : Z)
| EvRaiseSoftInterrupt (line cpuid : Z)
| EvClearSoftInterrupt (line cpuid : Z)
| EvTimeout (handle : nat).

Definition dispatch (e : Event) (s : System) : System :=
  match e with
  | EvInit system => Init system s
  | EvReset => Reset s
  | EvChangeCore cpuname => ChangeCPU cpuname s
  | EvLoadAndStart url => outcome_state (LoadImageAndStart url s)
  | EvKernelLoaded buffer => outcome_state (OnKernelLoaded buffer s)
  | EvExecute => MainLoop s
  | EvGetIPS => GetIPS s
  | EvPrintOnAbort => PrintState s
  | EvRaiseInterrupt line => RaiseInterrupt line s
  | EvClearInterrupt line => ClearInterrupt line s
  | EvRaiseSoftInterrupt line cpuid => RaiseSoftInterrupt line cpuid s
  | EvClearSoftInterrupt line cpuid => ClearSoftInterrupt line cpuid s
  | EvTimeout h => fire h s
  end.

Definition run (events : list Event) (s : System) : System :=
  fold_left (fun s e => dispatch e s) events s.

(** ** Notions used to state the properties *)

(** The marker "memory\0" starts at byte [i] of [m]. *)
Definition Marker (m : list Z) (i : nat) : Prop :=
  m !! (i + 0)%nat = Some 0x6d /\ m !! (i + 1)%nat = Some 0x65
  /\ m !! (i + 2)%nat = Some 0x6d /\ m !! (i + 3)%nat = Some 0x6f
  /\ m !! (i + 4)%nat = Some 0x72 /\ m !! (i + 5)%nat = Some 0x79
  /\ m !! (i + 6)%nat = Some 0x00.

(** The four bytes at offset 24 from [i] are [b24 b25 b26 b27]. *)
Definition Field (b24 b25 b26 b27 : Z) (m : list Z) (i : nat) : Prop :=
  m !! (i + 24)%nat = Some b24 /\ m !! (i + 25)%nat = Some b25
  /\ m !! (i + 26)%nat = Some b26 /\ m !! (i + 27)%nat = Some b27.

(** The placeholder size 01 F0 00 00 (31 MB). *)
Definition Placeholder : list Z -> nat -> Prop := Field 0x01 0xF0 0x00 0x00.

(** The size field written for [msize] megabytes: the two high bytes
    of [msize * 0x100000], then two zero bytes. *)
Definition SizeField (msize : Z) : list Z -> nat -> Prop :=
  Field (JS.ToUint8 (JS.sar (msize * 0x100000) 24))
        (JS.ToUint8 (JS.sar (msize * 0x100000) 16)) 0x00 0x00.

(** A value that a [Uint8Array] can hold. *)
Definition is_uint8 (b : Z) : Prop := 0 <= b < 256.



(** The budget the next quantum gives the CPU, and what the CPU
    leaves unused of it. *)
Definition quantumBudget (s : System) : Z := instructionsperloop (timer s).

Definition unusedBudget (s : System) : Z :=
  fst (fst (cpu_Step (quantumBudget s) (timercyclesperinstruction (timer s)) (cpu s) (ram s))).

(** The spec's [elapsedCycles]: the wall-clock time since the wake was
    armed, in cycles, clamped to the cycles budgeted for the idle
    period. *)
Definition elapsedCycles (s : System) : Z :=
  Z.min ((utils_GetMilliseconds (clockreads s) - idletime s) * ticksperms s) (idlemaxwait s).

(** How often the timeout [h] fired in a record of calls. *)
Fixpoint fires (h : nat) (cs : list Call) : nat :=
  match cs with
  | [] => 0%nat
  | HostFire x :: cs => if Nat.eqb x h then S (fires h cs) else fires h cs
  | _ :: cs => fires h cs
  end.

(** The host never reuses a handle: every pending handle is below the
    next one it will hand out. *)
Definition handles_fresh (s : System) : Prop :=
  Forall (fun e => (fst e < nexthandle s)%nat) (timeouts s).

(** While idle, the handle kept by the system is pending, and its
    callback holds the cycles recorded in [idlemaxwait]. *)
Definition wake_armed (s : System) : Prop :=
  status s = SYSTEM_HALT ->
  exists h w, idletimeouthandle s = Some h /\ pending h s = Some w
              /\ wake_delta w = idlemaxwait s.

(** The handle [h] was handed out and is no longer pending. *)
Definition retired (h : nat) (s : System) : Prop :=
  pending h s = None /\ (h < nexthandle s)%nat.

(** [s'] has the pending wakes and the fired timeouts of [s], and is
    idle only if [s] was, with the same kept handle and budget. *)
Definition keeps_wakes (s s' : System) : Prop :=
  timeouts s' = timeouts s /\ nexthandle s' = nexthandle s
  /\ (forall h, fires h (calls s') = fires h (calls s))
  /\ (status s' = SYSTEM_HALT ->
      status s = SYSTEM_HALT /\ idletimeouthandle s' = idletimeouthandle s
      /\ idlemaxwait s' = idlemaxwait s).

(** The commands that zero the telemetry counter. *)
Definition zeroes_ips (e : Event) : bool :=
  match e with
  | EvGetIPS | EvReset | EvInit _ => true
  | _ => false
  end.

(** The scheduler's own state: what the directed interrupt operations
    must leave alone. *)
Definition same_schedule (s s' : System) : Prop :=
  status s' = status s /\ timeouts s' = timeouts s /\ nexthandle s' = nexthandle s
  /\ idletimeouthandle s' = idletimeouthandle s /\ idletime s' = idletime s
  /\ idlemaxwait s' = idlemaxwait s /\ ips s' = ips s /\ timer s' = timer s
  /\ clockreads s' = clockreads s /\ ram s' = ram s /\ devices s' = devices s.

(** ** Notions used to state further properties *)

(** The calls that move the CPU forward: steps and clock advances. *)
Fixpoint advances (cs : list Call) : nat :=
  match cs with
  | [] => 0%nat
  | CpuStep _ _ :: cs | CpuProgressTime _ :: cs => S (advances cs)
  | _ :: cs => advances cs
  end.

(** The total of the step counts handed to [timer.Update]. *)
Fixpoint stepped (cs : list Call) : Z :=
  match cs with
  | [] => 0
  | TimerUpdate totalsteps _ _ :: cs => totalsteps + stepped cs
  | _ :: cs => stepped cs
  end.

(** A wake as [HandleHalt] arms it: for a real number of cycles, and
    not for a wait of at most 1 ms. *)
Definition wake_ok (w : Wake) : Prop :=
  PrimFloat.leb (wake_delay w) 1 = false /\ wake_delta w <> -1.

Definition wakes_ok (s : System) : Prop := Forall (fun e => wake_ok (snd e)) (timeouts s).

(** Exactly one wake is pending while idle, the one whose handle the
    system keeps, and none otherwise. *)
Definition one_wake (s : System) : Prop :=
  (status s = SYSTEM_HALT ->
   exists h w, timeouts s = [(h, w)] /\ idletimeouthandle s = Some h)
  /\ (status s <> SYSTEM_HALT -> timeouts s = []).

(** The events that deliver the bytes of an image to the loader. *)
Definition starts (e : Event) : bool :=
  match e with
  | EvKernelLoaded _ | EvLoadAndStart (inr _) => true
  | _ => false
  end.

(** The events that set the status whatever it was. *)
Definition restarts (e : Event) : bool :=
  match e with
  | EvInit _ | EvReset => true
  | _ => starts e
  end.

(** The events that can end an idle period. *)
Definition wakes (e : Event) : bool :=
  match e with
  | EvRaiseInterrupt _ | EvTimeout _ => true
  | _ => false
  end.


(** Four bytes read as a big-endian 32-bit number. *)
Definition BE32 (b0 b1 b2 b3 : Z) : Z := b0 * 2 ^ 24 + b1 * 2 ^ 16 + b2 * 2 ^ 8 + b3.

(** The total of the values sent in answer to ["GetIPS"]. *)
Fixpoint reported (cs : list Call) : Z :=
  match cs with
  | [] => 0
  | MessageSend command (PNumber n) :: cs =>
      if String.eqb command "GetIPS" then n + reported cs else reported cs
  | _ :: cs => reported cs
  end.


End SystemModel.

(** ** A small machine that implements the contracts

    Used to evaluate the model on concrete inputs.  The CPU has a number
    of instructions of pending work and a countdown to its next timer
    interrupt; lines 0 to 7 are unmasked and start an interrupt handler
    of 5000 instructions, the other lines are masked.  The RAM has 2
    bytes for every configured megabyte.  The stand-in image formats are
    a 4-byte ELF magic followed by the bytes to place at address 0, and
    a 3-byte bzip2 magic followed by the stored bytes. *)

Module Toy.

Record ToyCPU := mkCPU {
  ticks : Z;
  work : Z;
  next : Z;
  little : bool }.

Definition elapse (d : Z) (c : ToyCPU) : ToyCPU :=
  mkCPU (ticks c + d) (work c)
    (if next c =? -1 then -1 else Z.max 0 (next c - d)) (little c).

Definition step (budget hint : Z) (c : ToyCPU) (r : RAM) : Z * ToyCPU * RAM :=
  let done := Z.max 0 (Z.min budget (work c)) in
  (budget - done, elapse (done * hint) (mkCPU (ticks c) (work c - done) (next c) (little c)), r).

Definition raise (line cpuid : Z) (c : ToyCPU) : ToyCPU :=
  if (0 <=? line) && (line <? 8) then mkCPU (ticks c) (work c + 5000) (next c) (little c)
  else c.

Definition cpu_contract : CPUContract ToyCPU := {|
  OR1KCPU_new := fun _ _ _ => Some (mkCPU 0 0 (-1) false);
  RISCVCPU_new := fun _ _ _ => Some (mkCPU 0 0 (-1) true);
  cpu_Step := step;
  cpu_Reset := fun c r => (mkCPU 0 0 (-1) (little c), r);
  cpu_AnalyzeImage := fun c r => (mkCPU (ticks c) 2500 2000000 (little c), r);
  cpu_RaiseInterrupt := raise;
  cpu_ClearInterrupt := fun _ _ c => c;
  cpu_ProgressTime := elapse;
  cpu_GetTicks := ticks;
  cpu_GetTimeToNextInterrupt := next;
  cpu_littleendian := little;
  cpu_switchImplementation := fun _ c => c |}.

Record ToyTimer := mkTimer { ipl : Z; cpi : Z; corr : float }.

Definition timer_contract : TimerContract ToyTimer := {|
  Timer_new := fun _ _ => mkTimer 1000 10 1%float;
  instructionsperloop := ipl;
  timercyclesperinstruction := cpi;
  correction := corr;
  timer_Update := fun _ _ _ t => t |}.

Definition devices_contract : DevicesContract unit ToyCPU := {|
  Devices_new := fun _ => tt;
  uartdev := fun n _ => Nat.eqb n 0;
  uartdev_Step := fun _ d c => (d, c);
  devices_Reset := fun d => d |}.

Fixpoint swap_words (n : nat) (l : list Z) : list Z :=
  match n, l with
  | S n, a :: b :: c :: d :: l => d :: c :: b :: a :: swap_words n l
  | _, _ => l
  end.

Definition has_prefix (magic l : list Z) : bool :=
  forallb (fun p => fst p =? snd p) (combine magic (List.firstn (List.length magic) l))
  && (List.length magic <=? List.length l)%nat.

Definition ELF_MAGIC : list Z := [0x7f; 0x45; 0x4c; 0x46].
Definition BZIP2_MAGIC : list Z := [0x42; 0x5a; 0x68].

Definition place (payload m : list Z) : list Z * bool :=
  (JS.copy_loop payload m (List.length payload), negb (Nat.eqb (List.length payload) 0)).

Definition loader_contract : LoaderContract := {|
  RAM_new := fun heap ramoffset => mkRAM (replicate (Z.to_nat ((heap - ramoffset) / 0x80000)) 0);
  ram_Little2Big := fun length r => mkRAM (swap_words (length / 4) (uint8mem r));
  elf_IsELF := has_prefix ELF_MAGIC;
  elf_Extract := fun b r =>
    (mkRAM (fst (place (List.skipn 4 b) (uint8mem r))), snd (place (List.skipn 4 b) (uint8mem r)));
  elf_Extract_bytes := fun b m => place (List.skipn 4 b) m;
  bzip2_IsBZIP2 := has_prefix BZIP2_MAGIC;
  bzip2_simple := fun b => (List.skipn 3 b, true);
  utils_GetMilliseconds := fun n => 1000 + 30 * Z.of_nat n |}.

Definition ToySystem : Type := @System ToyCPU ToyTimer unit.

(** The state in which the first command arrives. *)
Definition blank : ToySystem :=
  mkSystem SYSTEM_STOP 0 0 (mkRAM []) (mkCPU 0 0 (-1) false) tt (mkTimer 0 0 0%float)
    0 0 0 0 0 None [] 0%nat 0%nat [].

Definition play (events : list Event) (s : ToySystem) : ToySystem :=
  @run ToyCPU ToyTimer unit cpu_contract timer_contract devices_contract loader_contract
    events s.

(** A 32 MB OpenRISC machine. *)
Definition or1k32 : SystemConfig := mkConfig 32 1 "or1k" "default".

(** A flat image of 40 bytes. *)
Definition flat40 : list Z := List.map Z.of_nat (seq 1 40).

(** The machine booted on the flat image. *)
Definition booted : ToySystem := play [EvInit or1k32; EvKernelLoaded flat40] blank.

(** Three quanta later the boot work is done and the machine idles. *)
Definition idle : ToySystem := play [EvExecute; EvExecute; EvExecute] booted.

(** A device-tree fragment as an OpenRISC kernel embeds it: the node
    "memory" with the property [reg = <0x0 0x01F00000>], whose size
    cell lies 24 bytes after the start of the node name. *)
Definition dtb : list Z :=
  [0x00; 0x00; 0x00; 0x01;
   0x6d; 0x65; 0x6d; 0x6f; 0x72; 0x79; 0x00; 0x00;
   0x00; 0x00; 0x00; 0x03; 0x00; 0x00; 0x00; 0x08; 0x00; 0x00; 0x00; 0x4b;
   0x00; 0x00; 0x00; 0x00; 0x01; 0xF0; 0x00; 0x00;
   0x00; 0x00; 0x00; 0x02].

(** A machine configured with [mb] megabytes whose memory holds the
    fragment, as the flat-binary path of the loader leaves it. *)
Definition with_dtb (mb : Z) : ToySystem :=
  let s := play [EvInit (mkConfig mb 1 "or1k" "default")] blank in
  set_ram
    (fst (outcome_state
            (@materialize loader_contract dtb (ram s)))) s.

(** A machine configured with 1 MB: the whole heap belongs to the CPU
    cores and the RAM above [ramoffset] is empty. *)
Definition tiny : ToySystem := play [EvInit (mkConfig 1 1 "or1k" "default")] blank.

(** A compressed image of six stored bytes, and one whose stored bytes
    are an ELF image. *)
Definition bz6 : list Z := BZIP2_MAGIC ++ [10; 20; 30; 40; 50; 60].
Definition bzelf : list Z := BZIP2_MAGIC ++ ELF_MAGIC ++ [7; 8; 9].

(** The same loader on a host whose clock is set back by 30 ms between
    two readings, and the machine booted and idle on that host. *)
Definition clock_set_back : LoaderContract := {|
  RAM_new := @RAM_new loader_contract;
  ram_Little2Big := @ram_Little2Big loader_contract;
  elf_IsELF := @elf_IsELF loader_contract;
  elf_Extract := @elf_Extract loader_contract;
  elf_Extract_bytes := @elf_Extract_bytes loader_contract;
  bzip2_IsBZIP2 := @bzip2_IsBZIP2 loader_contract;
  bzip2_simple := @bzip2_simple loader_contract;
  utils_GetMilliseconds := fun n => 5000 - 30 * Z.of_nat n |}.

Definition idle_set_back : ToySystem :=
  @run ToyCPU ToyTimer unit cpu_contract timer_contract devices_contract clock_set_back
    [EvInit or1k32; EvKernelLoaded flat40; EvExecute; EvExecute; EvExecute] blank.

(** The idle machine after a raise of the masked line 9 has armed a
    second wake, of 1375000 cycles, and a restart and a new image have
    led to a third idle period, of 1975000 cycles: the second wake is
    still pending beside the third. *)
Definition stale : ToySystem :=
  play [EvRaiseInterrupt 9; EvReset; EvKernelLoaded flat40; EvExecute; EvExecute; EvExecute]
    idle.

End Toy.

(** * Properties *)

Section SystemProperties.

Context {CPU Timer Devices : Type}.
Context {cpu_contract : CPUContract CPU} {timer_contract : TimerContract Timer}.
Context {devices_contract : DevicesContract Devices CPU} {loader_contract : LoaderContract}.

Abbreviation System := (@System CPU Timer Devices).

Implicit Types (s : System) (h : nat) (line cpuid delta : Z).

(** ** Effects of a quantum and of idle handling *)

Lemma status_eqb_eq (a b : SystemStatus) : status_eqb a b = true <-> a = b.
Proof. destruct a, b; simpl; split; congruence. Qed.

Lemma uart_step_frame n s :
  let s' := uart_step n s in
  status s' = status s /\ timeouts s' = timeouts s /\ nexthandle s' = nexthandle s
  /\ idletimeouthandle s' = idletimeouthandle s /\ idletime s' = idletime s
  /\ idlemaxwait s' = idlemaxwait s /\ ips s' = ips s /\ timer s' = timer s
  /\ clockreads s' = clockreads s /\ ram s' = ram s /\ ticksperms s' = ticksperms s
  /\ memorysize s' = memorysize s
  /\ forall h, fires h (calls s') = fires h (calls s).
Proof.
  unfold uart_step. destruct (uartdev n (devices s)); [|tauto].
  destruct (uartdev_Step n (devices s) (cpu s)) as [d c]. simpl. tauto.
Qed.

Lemma quantum_frame s :
  let s' := snd (quantum s) in
  status s' = status s /\ timeouts s' = timeouts s /\ nexthandle s' = nexthandle s
  /\ idletimeouthandle s' = idletimeouthandle s /\ idletime s' = idletime s
  /\ idlemaxwait s' = idlemaxwait s /\ clockreads s' = clockreads s
  /\ ticksperms s' = ticksperms s /\ memorysize s' = memorysize s
  /\ ips s' = ips s + (quantumBudget s - unusedBudget s + 1)
  /\ fst (quantum s) = negb (unusedBudget s =? 0)
  /\ forall h, fires h (calls s') = fires h (calls s).
Proof.
  unfold quantum, unusedBudget, quantumBudget. simpl.
  destruct (cpu_Step _ _ (cpu s) (ram s)) as [[left c] r]. simpl.
  match goal with |- context [uart_step 1 (uart_step 0 ?x)] => set (s1 := x) end.
  pose proof (uart_step_frame 0%nat s1) as F0.
  pose proof (uart_step_frame 1%nat (uart_step 0 s1)) as F1.
  simpl in F0, F1. destruct F0 as (?&?&?&?&?&?&?&?&?&?&?&?&?).
  destruct F1 as (?&?&?&?&?&?&?&?&?&?&?&?&?).
  repeat split; try congruence.
Qed.


Lemma quantum_calls s :
  exists q, calls (snd (quantum s))
            = q ++ CpuStep (quantumBudget s) (timercyclesperinstruction (timer s))
                   :: MessageSend "execute" (PNumber 0) :: calls s.
Proof.
  unfold quantum, quantumBudget, uart_step. simpl.
  destruct (cpu_Step _ _ (cpu s) (ram s)) as [[left c] r]. simpl.
  destruct (uartdev 0 (devices s)) eqn:U0;
    [destruct (uartdev_Step 0 (devices s) c) as [d0 c0]|]; simpl;
    match goal with |- context [uartdev 1 ?d] => destruct (uartdev 1 d) eqn:U1 end;
    try match goal with |- context [uartdev_Step 1 ?d ?c] =>
          destruct (uartdev_Step 1 d c) as [d1 c1] end; simpl.
  - eexists [_; _; _]. reflexivity.
  - eexists [_; _]. reflexivity.
  - eexists [_; _]. reflexivity.
  - eexists [_]. reflexivity.
Qed.

(** [HandleHalt] either declines to idle, leaving everything but
    [idlemaxwait] as it was, or arms one wake under the next handle. *)
Lemma HandleHalt_cases s :
  let delta := cpu_GetTimeToNextInterrupt (cpu s) in
  let mswait := mswait_of delta s in
  ((delta = -1 \/ PrimFloat.leb mswait 1 = true)
   /\ status (HandleHalt s) = status s /\ timeouts (HandleHalt s) = timeouts s
   /\ nexthandle (HandleHalt s) = nexthandle s
   /\ idletimeouthandle (HandleHalt s) = idletimeouthandle s
   /\ idletime (HandleHalt s) = idletime s
   /\ clockreads (HandleHalt s) = clockreads s
   /\ calls (HandleHalt s) = calls s)
  \/
  (delta <> -1 /\ PrimFloat.leb mswait 1 = false
   /\ status (HandleHalt s) = SYSTEM_HALT
   /\ timeouts (HandleHalt s) = (nexthandle s, mkWake mswait delta) :: timeouts s
   /\ nexthandle (HandleHalt s) = S (nexthandle s)
   /\ idletimeouthandle (HandleHalt s) = Some (nexthandle s)
   /\ idletime (HandleHalt s) = utils_GetMilliseconds (clockreads s)
   /\ idlemaxwait (HandleHalt s) = delta
   /\ clockreads (HandleHalt s) = S (clockreads s)
   /\ exists q, calls (HandleHalt s) = HostSetTimeout (nexthandle s) (mkWake mswait delta) :: q ++ calls s
                /\ forall h, fires h q = 0%nat).
Proof.
  unfold HandleHalt, mswait_of. simpl.
  destruct (Z.eqb_spec (cpu_GetTimeToNextInterrupt (cpu s)) (-1)) as [E|E].
  { left. repeat split; auto. }
  destruct (PrimFloat.leb _ 1) eqn:L.
  { left. simpl. repeat split; auto. }
  right. destruct (PrimFloat.ltb 1000 _); simpl; repeat split; auto.
  - eexists [_]. split; [reflexivity|]. reflexivity.
  - exists []. split; reflexivity.
Qed.

Lemma HandleHalt_frame s :
  ips (HandleHalt s) = ips s /\ memorysize (HandleHalt s) = memorysize s
  /\ ticksperms (HandleHalt s) = ticksperms s /\ cpu (HandleHalt s) = cpu s
  /\ ram (HandleHalt s) = ram s /\ timer (HandleHalt s) = timer s
  /\ devices (HandleHalt s) = devices s
  /\ forall h, fires h (calls (HandleHalt s)) = fires h (calls s).
Proof.
  unfold HandleHalt. simpl.
  destruct (_ =? -1); [tauto|]. destruct (PrimFloat.leb _ 1); [simpl; tauto|].
  destruct (PrimFloat.ltb 1000 _); simpl; tauto.
Qed.

Lemma MainLoop_run s :
  status s = SYSTEM_RUN ->
  MainLoop s = if fst (quantum s) then HandleHalt (snd (quantum s)) else snd (quantum s).
Proof.
  intros R. unfold MainLoop. rewrite R. simpl. destruct (quantum s). reflexivity.
Qed.

Lemma MainLoop_not_run s : status s <> SYSTEM_RUN -> MainLoop s = s.
Proof.
  intros R. unfold MainLoop.
  destruct (status_eqb (status s) SYSTEM_RUN) eqn:E; [|reflexivity].
  apply status_eqb_eq in E. contradiction.
Qed.

Lemma MainLoop_ips s :
  status s = SYSTEM_RUN ->
  ips (MainLoop s) = ips s + (quantumBudget s - unusedBudget s + 1).
Proof.
  intros R. rewrite (MainLoop_run s R).
  pose proof (quantum_frame s) as Q. simpl in Q.
  destruct Q as (_&_&_&_&_&_&_&_&_&Q&_).
  destruct (fst (quantum s)); [|exact Q].
  destruct (HandleHalt_frame (snd (quantum s))) as (I&_). congruence.
Qed.

(** ** The claims about the scheduler *)

(** C4 (as amended).  A quantum run while the state is RUNNING adds
    [quantumBudget - unusedBudget + 1] to the instructions-per-second
    counter: the count is incremented once, not floored at 1.  The added
    count is at least 1 whenever the CPU returns no more than the budget,
    and exactly 1 when it returns the whole budget. *)
Theorem MainLoop_counts_one_more_than_consumed s :
  status s = SYSTEM_RUN ->
  ips (MainLoop s) - ips s = quantumBudget s - unusedBudget s + 1
  /\ (unusedBudget s <= quantumBudget s -> 1 <= ips (MainLoop s) - ips s)
  /\ (unusedBudget s = quantumBudget s -> ips (MainLoop s) - ips s = 1).
Proof.
  intros R. rewrite (MainLoop_ips s R). repeat split; intros; lia.
Qed.



Lemma elapsedCycles_clamp s :
  (let delta := (utils_GetMilliseconds (clockreads s) - idletime s) * ticksperms s in
   if delta >? idlemaxwait s then idlemaxwait s else delta) = elapsedCycles s.
Proof.
  unfold elapsedCycles. simpl.
  destruct (Z.gtb_spec ((utils_GetMilliseconds (clockreads s) - idletime s) * ticksperms s)
              (idlemaxwait s)); lia.
Qed.

Lemma find_cancel_same (h : nat) (l : list (nat * Wake)) :
  List.find (fun e => Nat.eqb (fst e) h) (cancel h l) = None.
Proof.
  induction l as [|[x w] l IH]; simpl; [reflexivity|].
  destruct (Nat.eqb x h) eqn:E; simpl; [exact IH|]. rewrite E. exact IH.
Qed.

Lemma find_cancel_none (h x : nat) (l : list (nat * Wake)) :
  List.find (fun e => Nat.eqb (fst e) h) l = None ->
  List.find (fun e => Nat.eqb (fst e) h) (cancel x l) = None.
Proof.
  induction l as [|[y w] l IH]; simpl; [reflexivity|].
  destruct (Nat.eqb y h) eqn:E; [discriminate|]. intros F.
  destruct (Nat.eqb y x); simpl; [auto|]. rewrite E. auto.
Qed.

(** The state in which [RaiseInterrupt], called while idle, resumes
    [MainLoop]. *)
Lemma RaiseInterrupt_idle line s :
  status s = SYSTEM_HALT ->
  exists s3,
    RaiseInterrupt line s = MainLoop s3
    /\ status s3 = SYSTEM_RUN
    /\ calls s3 = CpuProgressTime (elapsedCycles s)
                  :: HostClearTimeout (idletimeouthandle s)
                  :: CpuRaiseInterrupt line (-1) :: calls s
    /\ cpu s3 = cpu_ProgressTime (elapsedCycles s) (cpu_RaiseInterrupt line (-1) (cpu s))
    /\ timeouts s3 = match idletimeouthandle s with
                     | Some h => cancel h (timeouts s)
                     | None => timeouts s
                     end
    /\ nexthandle s3 = nexthandle s /\ ips s3 = ips s /\ timer s3 = timer s
    /\ ram s3 = ram s /\ idletimeouthandle s3 = idletimeouthandle s.
Proof.
  intros Hs. unfold RaiseInterrupt. simpl. rewrite Hs. simpl.
  eexists. split; [reflexivity|].
  pose proof (elapsedCycles_clamp s) as E. simpl in E.
  unfold clearTimeout. simpl.
  destruct (idletimeouthandle s) eqn:Hh; simpl; rewrite ?Hh, E; repeat split; reflexivity.
Qed.

Lemma RaiseInterrupt_not_idle line s :
  status s <> SYSTEM_HALT ->
  RaiseInterrupt line s
  = emit (CpuRaiseInterrupt line (-1)) (set_cpu (cpu_RaiseInterrupt line (-1) (cpu s)) s).
Proof.
  intros Hs. unfold RaiseInterrupt. simpl.
  destruct (status_eqb (status s) SYSTEM_HALT) eqn:E; [|reflexivity].
  apply status_eqb_eq in E. contradiction.
Qed.

(** C1.  A raise that arrives while the state is IDLE is first
    forwarded to the CPU, for all cores.  Then the armed wake is
    cancelled, the CPU clock is advanced by
    [min((now - idletime) * ticksperms, idlemaxwait)], never more than
    the cycles budgeted when idle was entered, the state is RUNNING, and
    the quantum is run in the same call: the CPU is stepped before the
    raise returns.  In every state the event loop reaches
    ([run_inv]) the budget [idlemaxwait] is the number of cycles that
    the armed wake would have advanced. *)
Theorem RaiseInterrupt_while_idle_wakes_early line s :
  status s = SYSTEM_HALT ->
  exists s3,
    RaiseInterrupt line s = MainLoop s3
    /\ calls s3 = CpuProgressTime (elapsedCycles s)
                  :: HostClearTimeout (idletimeouthandle s)
                  :: CpuRaiseInterrupt line (-1) :: calls s
    /\ cpu s3 = cpu_ProgressTime (elapsedCycles s) (cpu_RaiseInterrupt line (-1) (cpu s))
    /\ elapsedCycles s <= idlemaxwait s
    /\ (forall h, idletimeouthandle s = Some h -> pending h s3 = None)
    /\ status s3 = SYSTEM_RUN
    /\ MainLoop s3 = (if fst (quantum s3) then HandleHalt (snd (quantum s3))
                      else snd (quantum s3))
    /\ (exists q q', calls (RaiseInterrupt line s)
                     = q ++ CpuStep (quantumBudget s3) (timercyclesperinstruction (timer s3))
                         :: q' ++ calls s3)
    /\ (wake_armed s ->
        exists h w, idletimeouthandle s = Some h /\ pending h s = Some w
                    /\ elapsedCycles s
                       = Z.min ((utils_GetMilliseconds (clockreads s) - idletime s)
                                * ticksperms s) (wake_delta w)).
Proof.
  intros Hs. destruct (RaiseInterrupt_idle line s Hs) as (s3&E&R&C&P&T&_).
  exists s3. split; [exact E|]. split; [exact C|]. split; [exact P|].
  split; [unfold elapsedCycles; lia|]. split; [|split; [exact R|]].
  { intros h Hh. unfold pending. rewrite T, Hh, find_cancel_same. reflexivity. }
  split; [apply MainLoop_run, R|]. split.
  - rewrite E, (MainLoop_run s3 R).
    destruct (quantum_calls s3) as (q&Q).
    destruct (fst (quantum s3)).
    + destruct (HandleHalt_cases (snd (quantum s3)))
        as [(_&_&_&_&_&_&_&F)|(_&_&_&_&_&_&_&_&_&q2&F&_)].
      * exists q, [MessageSend "execute" (PNumber 0)]. rewrite F, Q. reflexivity.
      * exists (HostSetTimeout (nexthandle (snd (quantum s3)))
                 (mkWake (mswait_of (cpu_GetTimeToNextInterrupt (cpu (snd (quantum s3))))
                            (snd (quantum s3)))
                    (cpu_GetTimeToNextInterrupt (cpu (snd (quantum s3))))) :: q2 ++ q),
               [MessageSend "execute" (PNumber 0)].
        rewrite F, Q. simpl. rewrite <- app_assoc. reflexivity.
    + exists q, [MessageSend "execute" (PNumber 0)]. rewrite Q. reflexivity.
  - intros A. destruct (A Hs) as (h&w&Hh&Hp&Hw). exists h, w.
    unfold elapsedCycles. rewrite Hw. auto.
Qed.

(** C10.  The directed operations [RaiseSoftInterrupt] and
    [ClearSoftInterrupt] make one call on the CPU and nothing else: in
    every state, IDLE included, the status, the pending wakes, the kept
    handle, the telemetry counter and the rest of the schedule are as
    before, and no call advances the CPU clock.  The broadcast
    [RaiseInterrupt], in contrast, leaves IDLE: it cancels the wake and
    advances the clock before it resumes the quantum. *)
Theorem soft_interrupts_only_forward line cpuid s :
  (same_schedule s (RaiseSoftInterrupt line cpuid s)
   /\ cpu (RaiseSoftInterrupt line cpuid s) = cpu_RaiseInterrupt line cpuid (cpu s)
   /\ calls (RaiseSoftInterrupt line cpuid s) = CpuRaiseInterrupt line cpuid :: calls s)
  /\ (same_schedule s (ClearSoftInterrupt line cpuid s)
      /\ cpu (ClearSoftInterrupt line cpuid s) = cpu_ClearInterrupt line cpuid (cpu s)
      /\ calls (ClearSoftInterrupt line cpuid s) = CpuClearInterrupt line cpuid :: calls s)
  /\ (status s = SYSTEM_HALT ->
      status (RaiseSoftInterrupt line cpuid s) = SYSTEM_HALT
      /\ status (ClearSoftInterrupt line cpuid s) = SYSTEM_HALT
      /\ exists s3, RaiseInterrupt line s = MainLoop s3 /\ status s3 = SYSTEM_RUN
           /\ calls s3 = CpuProgressTime (elapsedCycles s)
                         :: HostClearTimeout (idletimeouthandle s)
                         :: CpuRaiseInterrupt line (-1) :: calls s).
Proof.
  split; [|split].
  - unfold same_schedule, RaiseSoftInterrupt. simpl. repeat split; reflexivity.
  - unfold same_schedule, ClearSoftInterrupt. simpl. repeat split; reflexivity.
  - intros Hs. split; [exact Hs|]. split; [exact Hs|].
    destruct (RaiseInterrupt_idle line s Hs) as (s3&E&R&C&_).
    exists s3. auto.
Qed.


(** ** Invariants of the event loop *)

Ltac keeps_wakes_tac :=
  unfold keeps_wakes; simpl;
  repeat split; try reflexivity; try (intros; congruence); try (intros; discriminate).

Lemma keeps_wakes_refl s : keeps_wakes s s.
Proof. keeps_wakes_tac. Qed.

Lemma keeps_wakes_trans s1 s2 s3 :
  keeps_wakes s1 s2 -> keeps_wakes s2 s3 -> keeps_wakes s1 s3.
Proof.
  intros (A1&A2&A3&A4) (B1&B2&B3&B4). unfold keeps_wakes.
  split; [congruence|]. split; [congruence|]. split.
  - intros h. rewrite B3. apply A3.
  - intros Hs. destruct (B4 Hs) as (X&Y&Z). destruct (A4 X) as (X'&Y'&Z').
    repeat split; congruence.
Qed.

Lemma keeps_wakes_retired s s' h :
  keeps_wakes s s' -> retired h s ->
  retired h s' /\ fires h (calls s') = fires h (calls s).
Proof.
  intros (T&N&F&_) (P&L). unfold retired, pending in *.
  rewrite T, N. auto.
Qed.

Lemma keeps_wakes_inv s s' :
  keeps_wakes s s' -> handles_fresh s /\ wake_armed s ->
  handles_fresh s' /\ wake_armed s'.
Proof.
  intros (T&N&_&K) (Fr&Ar). unfold handles_fresh, wake_armed, pending in *.
  rewrite T, N. split; [exact Fr|].
  intros Hs. destruct (K Hs) as (Hs0&Hh&Hm). rewrite Hh, Hm. auto.
Qed.

Lemma uart_step_keeps n s : keeps_wakes s (uart_step n s).
Proof.
  pose proof (uart_step_frame n s) as F. simpl in F.
  destruct F as (A&B&C&D&_&E&_&_&_&_&_&_&G).
  unfold keeps_wakes. repeat split; try congruence; try apply G.
Qed.

Lemma quantum_keeps s : keeps_wakes s (snd (quantum s)).
Proof.
  pose proof (quantum_frame s) as F. simpl in F.
  destruct F as (A&B&C&D&_&E&_&_&_&_&_&G).
  unfold keeps_wakes. repeat split; try congruence; try apply G.
Qed.

Lemma HandleHalt_retired s h :
  retired h s ->
  retired h (HandleHalt s) /\ fires h (calls (HandleHalt s)) = fires h (calls s).
Proof.
  intros (P&L). split; [|apply HandleHalt_frame].
  unfold retired, pending in *.
  destruct (HandleHalt_cases s) as [(_&_&T&N&_)|(_&_&_&T&N&_)]; rewrite T, N.
  - auto.
  - simpl. destruct (Nat.eqb_spec (nexthandle s) h); [lia|]. split; [exact P|lia].
Qed.

Lemma HandleHalt_inv s :
  status s <> SYSTEM_HALT -> handles_fresh s /\ wake_armed s ->
  handles_fresh (HandleHalt s) /\ wake_armed (HandleHalt s).
Proof.
  intros Hs (Fr&Ar). unfold handles_fresh, wake_armed in *.
  destruct (HandleHalt_cases s) as [(_&S&T&N&_)|(_&_&_&T&N&Hh&_&Hm&_)].
  - rewrite T, N, S. split; [exact Fr|]. intros; contradiction.
  - rewrite T, N, Hh, Hm. split.
    + constructor; [simpl; lia|].
      eapply Forall_impl; [exact Fr|]. simpl. intros; lia.
    + intros _. eexists _, _. split; [reflexivity|]. unfold pending. rewrite T. simpl.
      rewrite Nat.eqb_refl. split; reflexivity.
Qed.

Lemma MainLoop_retired s h :
  retired h s ->
  retired h (MainLoop s) /\ fires h (calls (MainLoop s)) = fires h (calls s).
Proof.
  intros R. unfold MainLoop.
  destruct (negb (status_eqb (status s) SYSTEM_RUN)); [auto|].
  pose proof (quantum_keeps s) as K. destruct (quantum s) as [g s1]. simpl in K.
  destruct (keeps_wakes_retired _ _ h K R) as (R1&F1).
  destruct g; [|auto].
  destruct (HandleHalt_retired s1 h R1) as (R2&F2). split; [exact R2|congruence].
Qed.

Lemma MainLoop_inv s :
  handles_fresh s /\ wake_armed s ->
  handles_fresh (MainLoop s) /\ wake_armed (MainLoop s).
Proof.
  intros I. unfold MainLoop.
  destruct (status_eqb (status s) SYSTEM_RUN) eqn:E; simpl; [|exact I].
  apply status_eqb_eq in E.
  pose proof (quantum_keeps s) as K. pose proof (quantum_frame s) as F. simpl in F.
  destruct F as (S1&_).
  destruct (quantum s) as [g s1]. simpl in *.
  pose proof (keeps_wakes_inv _ _ K I) as I1.
  destruct g; [|exact I1]. apply HandleHalt_inv; [congruence|exact I1].
Qed.

Lemma cancel_fresh (x n : nat) (l : list (nat * Wake)) :
  Forall (fun e => (fst e < n)%nat) l -> Forall (fun e => (fst e < n)%nat) (cancel x l).
Proof.
  unfold cancel. induction 1 as [|e l He Hl IH]; simpl; [constructor|].
  destruct (negb _); [constructor|]; auto.
Qed.

(** The state that results once an idle system was woken, by a raise
    or by its timeout: RUNNING, with some pending timeouts cancelled. *)
Lemma woken_retired s s1 h x :
  timeouts s1 = cancel x (timeouts s) \/ timeouts s1 = timeouts s ->
  nexthandle s1 = nexthandle s -> retired h s -> retired h s1.
Proof.
  intros T N (P&L). unfold retired, pending in *. rewrite N. split; [|exact L].
  destruct T as [T|T]; rewrite T; [|exact P].
  destruct (List.find _ (timeouts s)) eqn:E; [discriminate|].
  rewrite (find_cancel_none _ _ _ E). reflexivity.
Qed.

Lemma woken_inv s s1 x :
  timeouts s1 = cancel x (timeouts s) \/ timeouts s1 = timeouts s ->
  nexthandle s1 = nexthandle s -> status s1 = SYSTEM_RUN ->
  handles_fresh s -> handles_fresh s1 /\ wake_armed s1.
Proof.
  intros T N R Fr. unfold handles_fresh, wake_armed in *. rewrite N. split.
  - destruct T as [T|T]; rewrite T; [apply cancel_fresh|]; exact Fr.
  - rewrite R. discriminate.
Qed.

Lemma RaiseInterrupt_retired line s h :
  retired h s ->
  retired h (RaiseInterrupt line s)
  /\ fires h (calls (RaiseInterrupt line s)) = fires h (calls s).
Proof.
  intros R. destruct (status s) eqn:Hs.
  1,2: rewrite RaiseInterrupt_not_idle by congruence; simpl; split; [exact R|reflexivity].
  destruct (RaiseInterrupt_idle line s Hs) as (s3&E&_&C&_&T&N&_).
  assert (R3 : retired h s3).
  { destruct (idletimeouthandle s) as [x|].
    - apply (woken_retired s s3 h x); auto.
    - apply (woken_retired s s3 h 0%nat); auto. }
  rewrite E. destruct (MainLoop_retired s3 h R3) as (R4&F4). split; [exact R4|].
  rewrite F4, C. reflexivity.
Qed.

Lemma RaiseInterrupt_inv line s :
  handles_fresh s /\ wake_armed s ->
  handles_fresh (RaiseInterrupt line s) /\ wake_armed (RaiseInterrupt line s).
Proof.
  intros I. destruct (status s) eqn:Hs.
  1,2: rewrite RaiseInterrupt_not_idle by congruence;
       apply (keeps_wakes_inv s); [keeps_wakes_tac|exact I].
  destruct (RaiseInterrupt_idle line s Hs) as (s3&E&R&_&_&T&N&_).
  rewrite E. apply MainLoop_inv.
  destruct (idletimeouthandle s) as [x|].
  - apply (woken_inv s s3 x); tauto.
  - apply (woken_inv s s3 0%nat); tauto.
Qed.

Lemma fire_cases h s :
  (pending h s = None /\ fire h s = s)
  \/ exists w s1,
       pending h s = Some w
       /\ timeouts s1 = cancel h (timeouts s) /\ nexthandle s1 = nexthandle s
       /\ ((status s <> SYSTEM_HALT /\ status s1 = status s /\ fire h s = s1
            /\ idletimeouthandle s1 = idletimeouthandle s /\ idlemaxwait s1 = idlemaxwait s
            /\ ips s1 = ips s
            /\ calls s1 = HostFire h :: calls s)
           \/ (status s = SYSTEM_HALT /\ status s1 = SYSTEM_RUN /\ fire h s = MainLoop s1
               /\ ips s1 = ips s
               /\ calls s1 = CpuProgressTime (wake_delta w) :: HostFire h :: calls s)).
Proof.
  unfold fire. destruct (pending h s) as [w|] eqn:P; [right|left; auto].
  unfold idle_callback. simpl.
  set (s0 := emit (HostFire h) (set_timeouts (cancel h (timeouts s)) s)).
  destruct (status s) eqn:Hs; simpl.
  - exists w, s0. repeat split; try reflexivity.
    left. repeat split; try reflexivity; try discriminate. exact Hs.
  - exists w, s0. repeat split; try reflexivity.
    left. repeat split; try reflexivity; try discriminate. exact Hs.
  - exists w, (emit (CpuProgressTime (wake_delta w))
                 (set_cpu (cpu_ProgressTime (wake_delta w) (cpu s0))
                    (set_status SYSTEM_RUN s0))).
    repeat split; try reflexivity. right. repeat split; reflexivity.
Qed.

Lemma fire_retired x s h :
  retired h s ->
  retired h (fire x s) /\ fires h (calls (fire x s)) = fires h (calls s).
Proof.
  intros R. destruct (fire_cases x s) as [(_&E)|(w&s1&P&T&N&C)].
  { rewrite E. auto. }
  assert (x <> h) as Ne by (destruct R as (Q&_); congruence).
  assert (R1 : retired h s1) by (apply (woken_retired s s1 h x); auto).
  destruct C as [(_&_&E&_&_&_&C)|(_&_&E&_&C)]; rewrite E.
  - split; [exact R1|]. rewrite C. simpl. destruct (Nat.eqb_spec x h); congruence.
  - destruct (MainLoop_retired s1 h R1) as (R2&F2). split; [exact R2|].
    rewrite F2, C. simpl. destruct (Nat.eqb_spec x h); congruence.
Qed.

Lemma fire_inv x s :
  handles_fresh s /\ wake_armed s ->
  handles_fresh (fire x s) /\ wake_armed (fire x s).
Proof.
  intros I. destruct (fire_cases x s) as [(_&E)|(w&s1&P&T&N&C)].
  { rewrite E. exact I. }
  destruct C as [(Hs&S1&E&_)|(_&R&E&_)]; rewrite E.
  - destruct I as (Fr&_). unfold handles_fresh, wake_armed. rewrite T, N, S1. split.
    + apply cancel_fresh, Fr.
    + intros; contradiction.
  - apply MainLoop_inv. apply (woken_inv s s1 x); tauto.
Qed.


Lemma OnKernelLoaded_keeps buffer s :
  keeps_wakes s (outcome_state (OnKernelLoaded buffer s))
  /\ ips (outcome_state (OnKernelLoaded buffer s)) = ips s.
Proof.
  unfold OnKernelLoaded. simpl.
  destruct (materialize buffer (ram s)) as [[r n]|[r n]]; simpl; [|split; keeps_wakes_tac].
  unfold commit, normalize, PatchKernel. simpl.
  destruct (cpu_littleendian (cpu s)); simpl.
  - destruct (cpu_Reset (cpu s) r) as [c1 r1]. simpl.
    destruct (cpu_AnalyzeImage c1 r1) as [c2 r2]. simpl. split; keeps_wakes_tac.
  - destruct (cpu_Reset (cpu s) _) as [c1 r1]. simpl.
    destruct (cpu_AnalyzeImage c1 r1) as [c2 r2]. simpl. split; keeps_wakes_tac.
Qed.

Lemma LoadImageAndStart_keeps url s :
  keeps_wakes s (outcome_state (LoadImageAndStart url s))
  /\ ips (outcome_state (LoadImageAndStart url s)) = ips s.
Proof.
  unfold LoadImageAndStart. destruct url as [u|buffer]; simpl.
  - split; keeps_wakes_tac.
  - match goal with |- context [OnKernelLoaded buffer ?x] =>
      destruct (OnKernelLoaded_keeps buffer x) as (K&I) end.
    split; [|rewrite I; reflexivity].
    eapply keeps_wakes_trans; [|exact K]. keeps_wakes_tac.
Qed.

Lemma Init_keeps system s : keeps_wakes s (Init system s) /\ ips (Init system s) = 0.
Proof.
  unfold Init, CreateCPU. simpl.
  destruct (if String.eqb (cfg_arch system) "or1k" then _ else _); simpl;
    split; keeps_wakes_tac.
Qed.

Lemma Reset_keeps s : keeps_wakes s (Reset s) /\ ips (Reset s) = 0.
Proof.
  unfold Reset. simpl. destruct (cpu_Reset (cpu s) (ram s)) as [c r]. simpl.
  split; keeps_wakes_tac.
Qed.

Lemma PrintState_keeps s : keeps_wakes s (PrintState s) /\ ips (PrintState s) = ips s.
Proof.
  unfold PrintState. simpl.
  pose proof (uart_step_frame 0%nat s) as F0.
  pose proof (uart_step_frame 1%nat (uart_step 0 s)) as F1. simpl in F0, F1.
  split; [|destruct F0 as (_&_&_&_&_&_&I0&_), F1 as (_&_&_&_&_&_&I1&_); congruence].
  eapply keeps_wakes_trans; [apply (uart_step_keeps 0%nat)|].
  eapply keeps_wakes_trans; [apply (uart_step_keeps 1%nat)|]. keeps_wakes_tac.
Qed.

(** Every event leaves a retired handle retired and unfired. *)
Lemma dispatch_retired e s h :
  retired h s ->
  retired h (dispatch e s) /\ fires h (calls (dispatch e s)) = fires h (calls s).
Proof.
  intros R. destruct e; cbn [dispatch].
  - apply (keeps_wakes_retired s); [apply Init_keeps|exact R].
  - apply (keeps_wakes_retired s); [apply Reset_keeps|exact R].
  - apply (keeps_wakes_retired s); [keeps_wakes_tac|exact R].
  - apply (keeps_wakes_retired s); [apply LoadImageAndStart_keeps|exact R].
  - apply (keeps_wakes_retired s); [apply OnKernelLoaded_keeps|exact R].
  - apply MainLoop_retired, R.
  - apply (keeps_wakes_retired s); [keeps_wakes_tac|exact R].
  - apply (keeps_wakes_retired s); [apply PrintState_keeps|exact R].
  - apply RaiseInterrupt_retired, R.
  - apply (keeps_wakes_retired s); [keeps_wakes_tac|exact R].
  - apply (keeps_wakes_retired s); [keeps_wakes_tac|exact R].
  - apply (keeps_wakes_retired s); [keeps_wakes_tac|exact R].
  - apply fire_retired, R.
Qed.

Lemma run_retired events s h :
  retired h s ->
  retired h (run events s) /\ fires h (calls (run events s)) = fires h (calls s).
Proof.
  revert s. induction events as [|e events IH]; intros s R; simpl; [auto|].
  destruct (dispatch_retired e s h R) as (R1&F1).
  destruct (IH _ R1) as (R2&F2). split; [exact R2|congruence].
Qed.

(** The host's handles stay fresh, and an idle system keeps its wake
    armed, whatever events arrive. *)
Lemma dispatch_inv e s :
  handles_fresh s /\ wake_armed s ->
  handles_fresh (dispatch e s) /\ wake_armed (dispatch e s).
Proof.
  intros I. destruct e; cbn [dispatch].
  - apply (keeps_wakes_inv s); [apply Init_keeps|exact I].
  - apply (keeps_wakes_inv s); [apply Reset_keeps|exact I].
  - apply (keeps_wakes_inv s); [keeps_wakes_tac|exact I].
  - apply (keeps_wakes_inv s); [apply LoadImageAndStart_keeps|exact I].
  - apply (keeps_wakes_inv s); [apply OnKernelLoaded_keeps|exact I].
  - apply MainLoop_inv, I.
  - apply (keeps_wakes_inv s); [keeps_wakes_tac|exact I].
  - apply (keeps_wakes_inv s); [apply PrintState_keeps|exact I].
  - apply RaiseInterrupt_inv, I.
  - apply (keeps_wakes_inv s); [keeps_wakes_tac|exact I].
  - apply (keeps_wakes_inv s); [keeps_wakes_tac|exact I].
  - apply (keeps_wakes_inv s); [keeps_wakes_tac|exact I].
  - apply fire_inv, I.
Qed.

Lemma run_inv events s :
  handles_fresh s /\ wake_armed s ->
  handles_fresh (run events s) /\ wake_armed (run events s).
Proof.
  revert s. induction events as [|e events IH]; intros s I; simpl; [exact I|].
  apply IH, dispatch_inv, I.
Qed.

(** A system that is not idle and has no pending timeout, such as one
    just initialised on a fresh host, satisfies the invariant. *)
Lemma initial_inv s :
  timeouts s = [] -> status s <> SYSTEM_HALT -> handles_fresh s /\ wake_armed s.
Proof.
  intros T Hs. unfold handles_fresh, wake_armed. rewrite T.
  split; [constructor|intros; contradiction].
Qed.


Lemma pending_fresh h s w :
  handles_fresh s -> pending h s = Some w -> (h < nexthandle s)%nat.
Proof.
  unfold handles_fresh, pending. intros Fr P.
  destruct (List.find _ (timeouts s)) as [[x w']|] eqn:E; [|discriminate].
  apply List.find_some in E. destruct E as (I&E). simpl in E.
  apply Nat.eqb_eq in E. subst x.
  rewrite Forall_forall in Fr. apply list_elem_of_In in I. apply (Fr _ I).
Qed.

(** C2 (as amended).  A raise that arrives while the state is IDLE
    sets the state to RUNNING and cancels the armed wake before it
    resumes the quantum.  The wake that was armed is not pending when
    the raise returns, and it never fires afterwards, whatever events
    follow.  When the raise returns the state is RUNNING, unless the
    resumed quantum itself ended idle: then the state is IDLE again with
    a newly armed wake under a different handle. *)
Theorem RaiseInterrupt_retires_armed_wake line s h w :
  handles_fresh s -> status s = SYSTEM_HALT ->
  idletimeouthandle s = Some h -> pending h s = Some w ->
  pending h (RaiseInterrupt line s) = None
  /\ (forall events,
        pending h (run events (RaiseInterrupt line s)) = None
        /\ fires h (calls (run events (RaiseInterrupt line s))) = fires h (calls s))
  /\ exists s3,
       RaiseInterrupt line s = MainLoop s3 /\ status s3 = SYSTEM_RUN
       /\ pending h s3 = None
       /\ (status (RaiseInterrupt line s) = SYSTEM_RUN
           \/ (status (RaiseInterrupt line s) = SYSTEM_HALT
               /\ unusedBudget s3 <> 0
               /\ idletimeouthandle (RaiseInterrupt line s) = Some (nexthandle s)
               /\ nexthandle s <> h
               /\ exists w', pending (nexthandle s) (RaiseInterrupt line s) = Some w')).
Proof.
  intros Fr Hs Hh P.
  pose proof (pending_fresh h s w Fr P) as L.
  destruct (RaiseInterrupt_idle line s Hs) as (s3&E&R&C&_&T&N&_).
  rewrite Hh in T.
  assert (P3 : pending h s3 = None).
  { unfold pending. rewrite T, find_cancel_same. reflexivity. }
  assert (R3 : retired h s3) by (split; [exact P3|lia]).
  destruct (MainLoop_retired s3 h R3) as (R4&F4).
  assert (F : fires h (calls (RaiseInterrupt line s)) = fires h (calls s)).
  { rewrite E, F4, C. reflexivity. }
  rewrite <- E in R4.
  split; [apply R4|]. split.
  - intros events. destruct (run_retired events _ h R4) as ((Q&_)&G).
    split; [exact Q|congruence].
  - exists s3. split; [exact E|]. split; [exact R|]. split; [exact P3|].
    rewrite E, (MainLoop_run s3 R).
    pose proof (quantum_frame s3) as Q. simpl in Q.
    destruct Q as (S1&_&N1&_&_&_&_&_&_&_&G&_).
    destruct (fst (quantum s3)); [|left; congruence].
    destruct (HandleHalt_cases (snd (quantum s3)))
      as [(_&S2&_)|(_&_&S2&T2&_&H2&_)].
    + left. congruence.
    + right. rewrite N1, N in *. split; [exact S2|].
      split; [destruct (Z.eqb_spec (unusedBudget s3) 0); [discriminate|assumption]|].
      split; [exact H2|]. split; [lia|].
      eexists. unfold pending. rewrite T2. simpl.
      rewrite Nat.eqb_refl. reflexivity.
Qed.




(** ** The configuration patch *)

Section Patch.

Variable msize : Z.

Implicit Types (m : list Z) (i j k : nat).

Lemma byte_is_true m i c : JS.byte_is m i c = true <-> m !! i = Some c.
Proof.
  unfold JS.byte_is. destruct (m !! i) as [v|]; [|split; discriminate].
  rewrite Z.eqb_eq. split; congruence.
Qed.

Lemma PatchKernel_found_iff m i :
  PatchKernel_found m i = true <-> Marker m i /\ Placeholder m i.
Proof.
  unfold PatchKernel_found, Marker, Placeholder, Field.
  rewrite !andb_true_iff, !byte_is_true. tauto.
Qed.

Lemma PatchKernel_write_length m i :
  length (PatchKernel_write msize m i) = length m.
Proof. unfold PatchKernel_write, JS.store. rewrite !length_insert. reflexivity. Qed.

Lemma PatchKernel_step_length m i :
  length (PatchKernel_step msize m i) = length m.
Proof.
  unfold PatchKernel_step. destruct (PatchKernel_found m i); [|reflexivity].
  apply PatchKernel_write_length.
Qed.

(** The write at [i] changes nothing outside the field of [i]. *)
Lemma PatchKernel_write_other m i k :
  ~ (i + 24 <= k <= i + 27)%nat -> PatchKernel_write msize m i !! k = m !! k.
Proof.
  intros N. unfold PatchKernel_write, JS.store.
  rewrite !list_lookup_insert_ne by lia. reflexivity.
Qed.

Lemma PatchKernel_write_field m i :
  Placeholder m i -> SizeField msize (PatchKernel_write msize m i) i.
Proof.
  intros (H24&H25&H26&H27).
  apply lookup_lt_Some in H24, H25, H26, H27.
  unfold SizeField, Field, PatchKernel_write, JS.store.
  repeat split.
  - rewrite !list_lookup_insert_ne by lia.
    rewrite list_lookup_insert_eq by lia. reflexivity.
  - rewrite !list_lookup_insert_ne by lia.
    rewrite list_lookup_insert_eq by (rewrite ?length_insert; lia). reflexivity.
  - rewrite !list_lookup_insert_ne by lia.
    rewrite list_lookup_insert_eq by (rewrite ?length_insert; lia). reflexivity.
  - rewrite list_lookup_insert_eq by (rewrite ?length_insert; lia). reflexivity.
Qed.

(** Two bytes read at the same place with different values. *)
Ltac clash :=
  match goal with
  | H1 : ?m !! ?a = Some ?u, H2 : ?m !! ?b = Some ?v |- _ =>
      let E := fresh in
      assert (a = b) as E by lia; rewrite E in H1; rewrite H1 in H2; discriminate H2
  end.

(** The marker does not overlap itself: two occurrences lie at least
    seven bytes apart. *)
Lemma Marker_apart m i j : Marker m i -> Marker m j -> (i < j)%nat -> (i + 7 <= j)%nat.
Proof.
  intros (A0&A1&A2&A3&A4&A5&A6) (B0&B1&B2&B3&B4&B5&B6) L.
  destruct (le_lt_dec (i + 7) j) as [|G]; [assumption|exfalso].
  assert (j = i + 1 \/ j = i + 2 \/ j = i + 3 \/ j = i + 4 \/ j = i + 5 \/ j = i + 6)%nat
    as D by lia.
  destruct D as [D|[D|[D|[D|[D|D]]]]]; subst j; clash.
Qed.

(** A placeholder field does not overlap a later marker. *)
Lemma Placeholder_clear_of_Marker m i j :
  Placeholder m j -> Marker m i -> ~ (j + 18 <= i <= j + 27)%nat.
Proof.
  intros (P24&P25&P26&P27) (A0&A1&A2&A3&A4&A5&A6) L.
  assert (i = j + 18 \/ i = j + 19 \/ i = j + 20 \/ i = j + 21 \/ i = j + 22
          \/ i = j + 23 \/ i = j + 24 \/ i = j + 25 \/ i = j + 26 \/ i = j + 27)%nat
    as D by lia.
  destruct D as [D|[D|[D|[D|[D|[D|[D|[D|[D|D]]]]]]]]]; subst i; clash.
Qed.


Lemma Marker_PatchKernel_write m i j :
  (i <= j)%nat -> Marker m i -> Marker (PatchKernel_write msize m j) i.
Proof.
  intros L M. unfold Marker in *.
  rewrite !PatchKernel_write_other by lia. exact M.
Qed.

(** A step elsewhere leaves a position that passes the tests passing. *)
Lemma PatchKernel_step_keeps_found m i j :
  j <> i -> Marker m i /\ Placeholder m i ->
  Marker (PatchKernel_step msize m j) i /\ Placeholder (PatchKernel_step msize m j) i.
Proof.
  intros Ne (M&P). unfold PatchKernel_step.
  destruct (PatchKernel_found m j) eqn:F; [|auto].
  apply PatchKernel_found_iff in F. destruct F as (Mj&Pj).
  assert ((j + 28 <= i)%nat \/ (j + 7 <= i < j + 18)%nat \/ (i + 7 <= j)%nat) as Far.
  { destruct (lt_eq_lt_dec i j) as [[L|E]|L]; [|congruence|].
    - right. right. apply (Marker_apart m i j M Mj L).
    - pose proof (Marker_apart m j i Mj M L).
      pose proof (Placeholder_clear_of_Marker m i j Pj M). lia. }
  unfold Marker, Placeholder, Field in *.
  rewrite !PatchKernel_write_other by lia. auto.
Qed.

(** A later step leaves a patched position patched. *)
Lemma PatchKernel_step_keeps_patched m i j :
  (i < j)%nat -> Marker m i /\ SizeField msize m i ->
  Marker (PatchKernel_step msize m j) i /\ SizeField msize (PatchKernel_step msize m j) i.
Proof.
  intros L (M&P). unfold PatchKernel_step.
  destruct (PatchKernel_found m j) eqn:F; [|auto].
  apply PatchKernel_found_iff in F. destruct F as (Mj&Pj).
  pose proof (Marker_apart m i j M Mj L).
  unfold Marker, SizeField, Field in *.
  rewrite !PatchKernel_write_other by lia. auto.
Qed.

Lemma scan_keeps_found (js : list nat) m i :
  (forall j, In j js -> j <> i) -> Marker m i /\ Placeholder m i ->
  Marker (fold_left (PatchKernel_step msize) js m) i
  /\ Placeholder (fold_left (PatchKernel_step msize) js m) i.
Proof.
  revert m. induction js as [|j js IH]; intros m Ne F; simpl; [exact F|].
  apply IH; [intros; apply Ne; right; assumption|].
  apply PatchKernel_step_keeps_found; [apply Ne; left; reflexivity|exact F].
Qed.

Lemma scan_keeps_patched (js : list nat) m i :
  (forall j, In j js -> (i < j)%nat) -> Marker m i /\ SizeField msize m i ->
  Marker (fold_left (PatchKernel_step msize) js m) i
  /\ SizeField msize (fold_left (PatchKernel_step msize) js m) i.
Proof.
  revert m. induction js as [|j js IH]; intros m Lt F; simpl; [exact F|].
  apply IH; [intros; apply Lt; right; assumption|].
  apply PatchKernel_step_keeps_patched; [apply Lt; left; reflexivity|exact F].
Qed.

Lemma PatchKernel_scan_length n m : length (PatchKernel_scan msize n m) = length m.
Proof.
  unfold PatchKernel_scan. generalize (seq 0 n). intros js. revert m.
  induction js as [|j js IH]; intros m; simpl; [reflexivity|].
  rewrite IH. apply PatchKernel_step_length.
Qed.

(** Every position that passes the tests when the scan starts holds
    the marker and the written size when the scan ends. *)
Lemma PatchKernel_scan_patches n m i :
  (i < n)%nat -> Marker m i -> Placeholder m i ->
  Marker (PatchKernel_scan msize n m) i /\ SizeField msize (PatchKernel_scan msize n m) i.
Proof.
  intros L M P. unfold PatchKernel_scan.
  replace n with (i + S (n - S i))%nat by lia.
  rewrite seq_app, fold_left_app. cbn [Nat.add seq fold_left].
  assert (Marker (fold_left (PatchKernel_step msize) (seq 0 i) m) i
          /\ Placeholder (fold_left (PatchKernel_step msize) (seq 0 i) m) i) as (M1&P1).
  { apply scan_keeps_found; [|auto]. intros j I. apply List.in_seq in I. lia. }
  apply scan_keeps_patched.
  - intros j I. apply List.in_seq in I. lia.
  - set (x := fold_left (PatchKernel_step msize) (seq 0 i) m) in *.
    unfold PatchKernel_step.
    rewrite (proj2 (PatchKernel_found_iff x i) (conj M1 P1)).
    split; [apply Marker_PatchKernel_write; [lia|exact M1]|].
    apply PatchKernel_write_field, P1.
Qed.

(** A byte that the scan changed lies in the size field of a marker
    that the scan patched. *)
Lemma PatchKernel_scan_frame n m k :
  PatchKernel_scan msize n m !! k = m !! k
  \/ exists j, (j < n)%nat /\ Marker (PatchKernel_scan msize n m) j
               /\ SizeField msize (PatchKernel_scan msize n m) j
               /\ (j + 24 <= k <= j + 27)%nat.
Proof.
  unfold PatchKernel_scan. induction n as [|n IH]; [left; reflexivity|].
  rewrite seq_S, fold_left_app. cbn [Nat.add fold_left].
  set (x := fold_left (PatchKernel_step msize) (seq 0 n) m) in *.
  assert (forall j, (j < n)%nat -> Marker x j /\ SizeField msize x j ->
            Marker (PatchKernel_step msize x n) j
            /\ SizeField msize (PatchKernel_step msize x n) j) as Keep.
  { intros j L. apply PatchKernel_step_keeps_patched, L. }
  unfold PatchKernel_step in *. destruct (PatchKernel_found x n) eqn:F.
  - apply PatchKernel_found_iff in F. destruct F as (Mn&Pn).
    destruct (le_lt_dec (n + 24) k) as [L1|L1].
    + destruct (le_lt_dec k (n + 27)) as [L2|L2].
      * right. exists n. split; [lia|].
        split; [apply Marker_PatchKernel_write; [lia|exact Mn]|].
        split; [apply PatchKernel_write_field, Pn|lia].
      * rewrite PatchKernel_write_other by lia.
        destruct IH as [E|(j&L&Mj&Sj&W)]; [left; exact E|right].
        exists j. destruct (Keep j L (conj Mj Sj)) as (Mj'&Sj').
        split; [lia|]. split; [exact Mj'|]. split; [exact Sj'|lia].
    + rewrite PatchKernel_write_other by lia.
      destruct IH as [E|(j&L&Mj&Sj&W)]; [left; exact E|right].
      exists j. destruct (Keep j L (conj Mj Sj)) as (Mj'&Sj').
      split; [lia|]. split; [exact Mj'|]. split; [exact Sj'|lia].
  - destruct IH as [E|(j&L&Mj&Sj&W)]; [left; exact E|right].
    exists j. split; [lia|]. split; [exact Mj|]. split; [exact Sj|lia].
Qed.

End Patch.



(** ** Materialising the image *)

Lemma ToUint8_small b : is_uint8 b -> JS.ToUint8 b = b.
Proof. unfold is_uint8, JS.ToUint8. intros. apply Z.mod_small. lia. Qed.

Lemma copy_loop_length (src dst : list Z) n :
  List.length (JS.copy_loop src dst n) = List.length dst.
Proof.
  unfold JS.copy_loop. induction n as [|n IH]; [reflexivity|].
  rewrite seq_S, fold_left_app. simpl. unfold JS.store at 1.
  rewrite length_insert. exact IH.
Qed.

Lemma copy_loop_lookup_in (src dst : list Z) n k :
  (k < n)%nat -> (k < List.length dst)%nat ->
  JS.copy_loop src dst n !! k = Some (JS.ToUint8 (JS.load src k)).
Proof.
  unfold JS.copy_loop. induction n as [|n IH]; intros L B; [lia|].
  rewrite seq_S, fold_left_app. simpl. unfold JS.store at 1.
  destruct (Nat.eq_dec k n) as [->|Ne].
  - rewrite list_lookup_insert_eq; [reflexivity|].
    fold (JS.copy_loop src dst n). rewrite copy_loop_length. exact B.
  - rewrite list_lookup_insert_ne by congruence. apply IH; lia.
Qed.

Lemma copy_loop_lookup_out (src dst : list Z) n k :
  (n <= k)%nat -> JS.copy_loop src dst n !! k = dst !! k.
Proof.
  unfold JS.copy_loop. induction n as [|n IH]; intros L; [reflexivity|].
  rewrite seq_S, fold_left_app. simpl. unfold JS.store at 1.
  rewrite list_lookup_insert_ne by lia. apply IH. lia.
Qed.


Lemma inflate_length (out : list Z) (st : list Z * nat) :
  snd (fold_left inflate_byte out st) = (snd st + List.length out)%nat.
Proof.
  revert st. induction out as [|x out IH]; intros st; simpl; [lia|].
  rewrite IH. simpl. lia.
Qed.

Lemma inflate_memory_length (out : list Z) (st : list Z * nat) :
  List.length (fst (fold_left inflate_byte out st)) = List.length (fst st).
Proof.
  revert st. induction out as [|x out IH]; intros st; simpl; [reflexivity|].
  rewrite IH. simpl. unfold JS.store. apply length_insert.
Qed.

(** The [j]-th byte handed to the output callback is stored at address
    [a + j], where [a] is the value of [length] when inflation starts,
    provided that address exists; nothing else changes. *)
Lemma inflate_lookup (out : list Z) (m : list Z) (a k : nat) :
  fst (fold_left inflate_byte out (m, a)) !! k
  = match out !! (k - a)%nat with
    | Some x => if decide (a <= k /\ k < List.length m)%nat
                then Some (JS.ToUint8 x) else m !! k
    | None => m !! k
    end.
Proof.
  revert m a. induction out as [|x out IH]; intros m a; [reflexivity|].
  cbn [fold_left]. unfold inflate_byte at 2. cbn [fst snd]. rewrite IH.
  unfold JS.store. rewrite length_insert.
  destruct (lt_eq_lt_dec k a) as [[L|E]|L].
  - replace (k - a)%nat with 0%nat by lia. replace (k - S a)%nat with 0%nat by lia.
    cbn [lookup list_lookup]. rewrite list_lookup_insert_ne by lia.
    destruct (out !! 0%nat); repeat case_decide; try lia; reflexivity.
  - subst k. replace (a - a)%nat with 0%nat by lia.
    replace (a - S a)%nat with 0%nat by lia. cbn [lookup list_lookup].
    assert (<[a:=JS.ToUint8 x]> m !! a
            = if decide (a <= a /\ a < List.length m)%nat then Some (JS.ToUint8 x)
              else m !! a) as E.
    { case_decide as D.
      - apply list_lookup_insert_eq. lia.
      - rewrite list_insert_ge by lia. reflexivity. }
    destruct (out !! 0%nat); [|exact E].
    destruct (decide (S a <= a /\ a < List.length m)%nat) as [D|D]; [lia|exact E].
  - replace (k - a)%nat with (S (k - S a)) by lia. cbn [lookup list_lookup].
    rewrite list_lookup_insert_ne by lia.
    destruct (out !! (k - S a)%nat); [|reflexivity].
    repeat case_decide; try lia; reflexivity.
Qed.

(** Bytes inflated into an array that can hold them. *)
Lemma inflate_fits (out m : list Z) :
  Forall is_uint8 out -> (List.length out <= List.length m)%nat ->
  fold_left inflate_byte out (m, 0%nat) = (out ++ drop (List.length out) m, List.length out).
Proof.
  intros B L. apply injective_projections; [|apply inflate_length].
  cbn [fst]. apply list_eq. intros k. rewrite inflate_lookup.
  replace (k - 0)%nat with k by lia.
  destruct (le_lt_dec (List.length out) k) as [G|G].
  - rewrite (lookup_ge_None_2 out k) by exact G.
    rewrite lookup_app_r by exact G. rewrite lookup_drop. f_equal. lia.
  - destruct (lookup_lt_is_Some_2 out k G) as (b&E). rewrite E.
    rewrite lookup_app_l by exact G. rewrite E.
    case_decide; [|lia]. f_equal. apply ToUint8_small.
    rewrite Forall_forall in B. apply B. apply list_elem_of_lookup. eauto.
Qed.

(** The copy [temp] of the first [length] bytes of memory. *)
Lemma temp_is_decompressed (out rest : list Z) :
  Forall is_uint8 out ->
  JS.copy_loop (out ++ rest) (JS.new_Uint8Array (List.length out)) (List.length out) = out.
Proof.
  intros B. apply list_eq. intros k. unfold JS.new_Uint8Array.
  destruct (le_lt_dec (List.length out) k) as [G|G].
  - rewrite copy_loop_lookup_out by exact G.
    rewrite (lookup_ge_None_2 out k) by exact G.
    apply lookup_ge_None_2. rewrite length_replicate. exact G.
  - rewrite copy_loop_lookup_in by (rewrite ?length_replicate; lia).
    destruct (lookup_lt_is_Some_2 out k G) as (b&E). rewrite E.
    unfold JS.load. rewrite lookup_app_l by exact G. rewrite E. simpl.
    f_equal. apply ToUint8_small.
    rewrite Forall_forall in B. apply B. apply list_elem_of_lookup. eauto.
Qed.


(** ** The claims about the boot loader *)

(** C6 (as amended).  For a buffer that is sniffed as compressed, the
    bytes handed out by the decompressor are stored from address 0 on,
    byte [k] at address [k] if memory has that address, and the tracked
    [length] is the number of bytes handed out.  When the decompressor
    has returned and memory then starts with an ELF image, extraction is
    run on [temp], the copy of the first [length] bytes of memory, and
    not on the compressed buffer.  When the decompressed bytes fit into
    memory, all of them were written, memory starts with exactly these
    bytes, and [temp] is equal to them. *)
Theorem compressed_image_is_inflated_from_zero buffer8 r :
  elf_IsELF buffer8 = false -> bzip2_IsBZIP2 buffer8 = true ->
  let out := fst (bzip2_simple buffer8) in
  let inflated := fold_left inflate_byte out (uint8mem r, 0%nat) in
  let temp := JS.copy_loop (fst inflated) (JS.new_Uint8Array (List.length out))
                (List.length out) in
  snd inflated = List.length out
  /\ (forall k x, out !! k = Some x -> (k < List.length (uint8mem r))%nat ->
                  fst inflated !! k = Some (JS.ToUint8 x))
  /\ (forall k, (List.length out <= k)%nat -> fst inflated !! k = uint8mem r !! k)
  /\ (snd (bzip2_simple buffer8) = true ->
      materialize buffer8 r
      = if elf_IsELF (fst inflated) then
          if snd (elf_Extract_bytes temp (fst inflated))
          then Returned (mkRAM (fst (elf_Extract_bytes temp (fst inflated))), List.length out)
          else Thrown (mkRAM (fst (elf_Extract_bytes temp (fst inflated))), List.length out)
        else Returned (mkRAM (fst inflated), List.length out))
  /\ (Forall is_uint8 out -> (List.length out <= List.length (uint8mem r))%nat ->
      fst inflated = out ++ drop (List.length out) (uint8mem r) /\ temp = out).
Proof.
  intros E B out inflated temp.
  assert (snd inflated = List.length out) as N by apply inflate_length.
  split; [exact N|]. split; [|split; [|split]].
  - intros k x K L. unfold inflated. rewrite inflate_lookup.
    replace (k - 0)%nat with k by lia. rewrite K. case_decide; [reflexivity|lia].
  - intros k L. unfold inflated. rewrite inflate_lookup.
    replace (k - 0)%nat with k by lia.
    rewrite (lookup_ge_None_2 out k) by exact L. reflexivity.
  - intros Ok. unfold materialize. rewrite E, B.
    subst temp. revert N. unfold inflated, out.
    destruct (bzip2_simple buffer8) as [o ok]. simpl in *. subst ok.
    destruct (fold_left inflate_byte o (uint8mem r, 0%nat)) as [m n]. simpl.
    intros ->. destruct (elf_IsELF m); [|reflexivity].
    destruct (elf_Extract_bytes _ m) as [m' ok']. reflexivity.
  - intros By L. unfold temp, inflated.
    rewrite (inflate_fits out (uint8mem r) By L). simpl.
    split; [reflexivity|]. apply temp_is_decompressed, By.
Qed.



End SystemProperties.

(** * Further properties of the event loop and the loader *)

Section FurtherProperties.

Context {CPU Timer Devices : Type}.
Context {cpu_contract : CPUContract CPU} {timer_contract : TimerContract Timer}.
Context {devices_contract : DevicesContract Devices CPU} {loader_contract : LoaderContract}.

Abbreviation System := (@System CPU Timer Devices).

Implicit Types (s : System) (h : nat) (line cpuid delta : Z) (e : Event).

Ltac keeps_wakes_tac :=
  unfold keeps_wakes; simpl;
  repeat split; try reflexivity; try (intros; congruence); try (intros; discriminate).

Lemma run_cons e events s : run (e :: events) s = run events (dispatch e s).
Proof. reflexivity. Qed.

(** ** What a quantum and idle handling add to the record of calls *)

Lemma uart_step_counts n s :
  advances (calls (uart_step n s)) = advances (calls s)
  /\ stepped (calls (uart_step n s)) = stepped (calls s).
Proof.
  unfold uart_step. destruct (uartdev n (devices s)); [|tauto].
  destruct (uartdev_Step n (devices s) (cpu s)) as [d c]. simpl. tauto.
Qed.

Lemma quantum_counts s :
  advances (calls (snd (quantum s))) = S (advances (calls s))
  /\ stepped (calls (snd (quantum s)))
     = quantumBudget s - unusedBudget s + 1 + stepped (calls s).
Proof.
  unfold quantum, unusedBudget, quantumBudget. simpl.
  destruct (cpu_Step _ _ (cpu s) (ram s)) as [[left c] r]. simpl.
  match goal with |- context [uart_step 1 (uart_step 0 ?x)] => set (s1 := x) end.
  destruct (uart_step_counts 0%nat s1) as (A0&T0).
  destruct (uart_step_counts 1%nat (uart_step 0 s1)) as (A1&T1).
  rewrite A1, A0, T1, T0. simpl. split; reflexivity.
Qed.

Lemma HandleHalt_counts s :
  advances (calls (HandleHalt s)) = advances (calls s)
  /\ stepped (calls (HandleHalt s)) = stepped (calls s).
Proof.
  unfold HandleHalt. simpl.
  destruct (_ =? -1); [tauto|]. destruct (PrimFloat.leb _ 1); [simpl; tauto|].
  destruct (PrimFloat.ltb 1000 _); simpl; tauto.
Qed.

(** A quantum that runs steps the CPU once, hands its step count to the
    timer and to the counter, and ends RUNNING or IDLE. *)
Lemma MainLoop_running s :
  status s = SYSTEM_RUN ->
  (status (MainLoop s) = SYSTEM_RUN \/ status (MainLoop s) = SYSTEM_HALT)
  /\ advances (calls (MainLoop s)) = S (advances (calls s))
  /\ stepped (calls (MainLoop s)) - stepped (calls s) = ips (MainLoop s) - ips s.
Proof.
  intros R. rewrite (MainLoop_ips s R), (MainLoop_run s R).
  destruct (quantum_counts s) as (A&T).
  pose proof (quantum_frame s) as Q. simpl in Q. destruct Q as (S1&_).
  destruct (fst (quantum s)).
  - destruct (HandleHalt_counts (snd (quantum s))) as (A'&T').
    rewrite A', T', A, T. split; [|split; [reflexivity|lia]].
    destruct (HandleHalt_cases (snd (quantum s))) as [(_&S2&_)|(_&_&S2&_)].
    + left. congruence.
    + right. exact S2.
  - rewrite A, T. split; [left; congruence|]. split; [reflexivity|lia].
Qed.

Lemma MainLoop_calls_extend s : exists q, calls (MainLoop s) = q ++ calls s.
Proof.
  destruct (status s) eqn:Hs.
  2,3: rewrite MainLoop_not_run by congruence; exists []; reflexivity.
  rewrite (MainLoop_run s Hs). destruct (quantum_calls s) as (q&Q).
  destruct (fst (quantum s)).
  - destruct (HandleHalt_cases (snd (quantum s)))
      as [(_&_&_&_&_&_&_&F)|(_&_&_&_&_&_&_&_&_&q2&F&_)]; rewrite F, Q.
    + exists (q ++ [CpuStep (quantumBudget s) (timercyclesperinstruction (timer s));
                    MessageSend "execute" (PNumber 0)]).
      rewrite <- app_assoc. reflexivity.
    + eexists (_ :: q2 ++ q ++ [_; _]). simpl. rewrite <- !app_assoc. reflexivity.
  - rewrite Q. exists (q ++ [CpuStep (quantumBudget s) (timercyclesperinstruction (timer s));
                             MessageSend "execute" (PNumber 0)]).
    rewrite <- app_assoc. reflexivity.
Qed.

(** The loader either returns, with the CPU reset and the status
    RUNNING, or throws, and then it has changed the memory only. *)
Lemma OnKernelLoaded_cases buffer s :
  (returned (OnKernelLoaded buffer s) = true
   /\ status (outcome_state (OnKernelLoaded buffer s)) = SYSTEM_RUN
   /\ exists q, calls (outcome_state (OnKernelLoaded buffer s))
                = MessageSend "execute" (PNumber 0) :: MessageDebug DebugStartingEmulation
                  :: CpuAnalyzeImage :: CpuReset :: q)
  \/ (returned (OnKernelLoaded buffer s) = false
      /\ returned (materialize buffer (ram s)) = false
      /\ exists r, outcome_state (OnKernelLoaded buffer s)
                   = set_ram r (SendStringToTerminal
                       ("Decompressing kernel..." ++ String "013" (String "010" "")) s)).
Proof.
  unfold OnKernelLoaded. simpl.
  destruct (materialize buffer (ram s)) as [[r n]|[r n]]; simpl.
  - left. split; [reflexivity|]. unfold commit.
    destruct (cpu_Reset _ _) as [c1 r1]. simpl.
    destruct (cpu_AnalyzeImage _ _) as [c2 r2]. simpl.
    split; [reflexivity|]. eexists. reflexivity.
  - right. split; [reflexivity|]. split; [reflexivity|]. exists r. reflexivity.
Qed.

(** ** The state machine *)


Lemma dispatch_stopped e s :
  status s = SYSTEM_STOP -> starts e = false ->
  status (dispatch e s) = SYSTEM_STOP
  /\ advances (calls (dispatch e s)) = advances (calls s).
Proof.
  intros Hs St. destruct e; try discriminate; cbn [dispatch].
  - unfold Init, CreateCPU. simpl.
    destruct (if String.eqb (cfg_arch system) "or1k" then _ else _); split; reflexivity.
  - unfold Reset. simpl. destruct (cpu_Reset _ _). split; reflexivity.
  - split; [exact Hs|reflexivity].
  - destruct url as [u|buffer]; [|discriminate]. split; [exact Hs|reflexivity].
  - rewrite MainLoop_not_run by congruence. auto.
  - split; [exact Hs|reflexivity].
  - unfold PrintState. simpl.
    pose proof (uart_step_frame 0%nat s) as F0.
    pose proof (uart_step_frame 1%nat (uart_step 0 s)) as F1. simpl in F0, F1.
    destruct F0 as (A0&_), F1 as (A1&_).
    destruct (uart_step_counts 0%nat s) as (C0&_).
    destruct (uart_step_counts 1%nat (uart_step 0 s)) as (C1&_).
    split; congruence.
  - rewrite RaiseInterrupt_not_idle by congruence. split; [exact Hs|reflexivity].
  - split; [exact Hs|reflexivity].
  - split; [exact Hs|reflexivity].
  - split; [exact Hs|reflexivity].
  - destruct (fire_cases handle s)
      as [(_&E)|(w&s1&_&_&_&[(_&S1&E&_&_&_&C)|(Hs'&_)])]; [| |congruence]; rewrite E.
    + auto.
    + rewrite C. split; [congruence|reflexivity].
Qed.

(** X2.  A stopped system stays stopped, and its CPU is neither stepped
    nor advanced in time, until the bytes of an image arrive: execute
    requests, raised and cleared interrupts, timeouts left over from an
    earlier idle period, queries and further [Init] or [Reset] commands
    do not start it. *)
Theorem stopped_system_waits_for_an_image events s :
  status s = SYSTEM_STOP -> Forall (fun e => starts e = false) events ->
  status (run events s) = SYSTEM_STOP
  /\ advances (calls (run events s)) = advances (calls s).
Proof.
  intros Hs F. revert s Hs. induction F as [|e events St F IH]; intros s Hs; [auto|].
  rewrite !run_cons. destruct (dispatch_stopped e s Hs St) as (S1&A1).
  destruct (IH _ S1) as (S2&A2). split; [exact S2|congruence].
Qed.

Lemma dispatch_idle e s :
  status s = SYSTEM_HALT -> wakes e = false -> restarts e = false ->
  status (dispatch e s) = SYSTEM_HALT
  /\ timeouts (dispatch e s) = timeouts s
  /\ idletimeouthandle (dispatch e s) = idletimeouthandle s
  /\ idletime (dispatch e s) = idletime s
  /\ idlemaxwait (dispatch e s) = idlemaxwait s
  /\ advances (calls (dispatch e s)) = advances (calls s).
Proof.
  intros Hs W R. destruct e; try discriminate; cbn [dispatch].
  - repeat split; auto.
  - destruct url as [u|buffer]; [|discriminate]. repeat split; auto.
  - rewrite MainLoop_not_run by congruence. repeat split; auto.
  - repeat split; auto.
  - unfold PrintState. simpl.
    pose proof (uart_step_frame 0%nat s) as F0.
    pose proof (uart_step_frame 1%nat (uart_step 0 s)) as F1. simpl in F0, F1.
    destruct F0 as (A0&B0&_&D0&E0&G0&_), F1 as (A1&B1&_&D1&E1&G1&_).
    destruct (uart_step_counts 0%nat s) as (C0&_).
    destruct (uart_step_counts 1%nat (uart_step 0 s)) as (C1&_).
    repeat split; congruence.
  - repeat split; auto.
  - repeat split; auto.
  - repeat split; auto.
Qed.

(** X3.  An idle system is left by a raise, by a timeout or by a
    restart only.  Execute requests that arrive while it is idle are
    dropped, and cleared interrupts, directed raises, queries, print
    requests and changes of core leave it idle with the same wake
    pending, the same budget, and a CPU that was neither stepped nor
    advanced in time. *)
Theorem idle_system_ignores_other_events events s :
  status s = SYSTEM_HALT ->
  Forall (fun e => wakes e = false /\ restarts e = false) events ->
  status (run events s) = SYSTEM_HALT
  /\ timeouts (run events s) = timeouts s
  /\ idletimeouthandle (run events s) = idletimeouthandle s
  /\ idletime (run events s) = idletime s
  /\ idlemaxwait (run events s) = idlemaxwait s
  /\ advances (calls (run events s)) = advances (calls s).
Proof.
  intros Hs F. revert s Hs. induction F as [|e events (W&R) F IH]; intros s Hs.
  { repeat split; auto. }
  rewrite !run_cons. destruct (dispatch_idle e s Hs W R) as (S1&T1&H1&I1&M1&A1).
  destruct (IH _ S1) as (S2&T2&H2&I2&M2&A2). repeat split; congruence.
Qed.

(** ** Wakes *)

Lemma cancel_Forall (P : nat * Wake -> Prop) (x : nat) (l : list (nat * Wake)) :
  Forall P l -> Forall P (cancel x l).
Proof.
  unfold cancel. induction 1 as [|a l Ha Hl IH]; simpl; [constructor|].
  destruct (negb _); [constructor|]; auto.
Qed.

Lemma HandleHalt_wakes_ok s : wakes_ok s -> wakes_ok (HandleHalt s).
Proof.
  unfold wakes_ok. intros W.
  destruct (HandleHalt_cases s) as [(_&_&T&_)|(N&L&_&T&_)]; rewrite T; [exact W|].
  constructor; [split; assumption|exact W].
Qed.

Lemma MainLoop_wakes_ok s : wakes_ok s -> wakes_ok (MainLoop s).
Proof.
  intros W. unfold MainLoop. destruct (negb _); [exact W|].
  pose proof (quantum_frame s) as Q. simpl in Q. destruct Q as (_&T&_).
  destruct (quantum s) as [g s1]. simpl in T.
  assert (wakes_ok s1) as W1 by (unfold wakes_ok in *; rewrite T; exact W).
  destruct g; [apply HandleHalt_wakes_ok|]; exact W1.
Qed.

Lemma dispatch_wakes_ok e s : wakes_ok s -> wakes_ok (dispatch e s).
Proof.
  intros W.
  assert (forall s', keeps_wakes s s' -> wakes_ok s') as K.
  { intros s' (T&_). unfold wakes_ok in *. rewrite T. exact W. }
  destruct e; cbn [dispatch].
  - apply K, Init_keeps.
  - apply K, Reset_keeps.
  - apply K. keeps_wakes_tac.
  - apply K, LoadImageAndStart_keeps.
  - apply K, OnKernelLoaded_keeps.
  - apply MainLoop_wakes_ok, W.
  - apply K. keeps_wakes_tac.
  - apply K, PrintState_keeps.
  - destruct (status s) eqn:Hs.
    1,2: rewrite RaiseInterrupt_not_idle by congruence; apply K; keeps_wakes_tac.
    destruct (RaiseInterrupt_idle line s Hs) as (s3&E&_&_&_&T&_).
    rewrite E. apply MainLoop_wakes_ok. unfold wakes_ok in *. rewrite T.
    destruct (idletimeouthandle s); [apply cancel_Forall|]; exact W.
  - apply K. keeps_wakes_tac.
  - apply K. keeps_wakes_tac.
  - apply K. keeps_wakes_tac.
  - destruct (fire_cases handle s)
      as [(_&E)|(w&s1&_&T&_&[(_&_&E&_)|(_&_&E&_)])]; rewrite E; [exact W| |].
    + unfold wakes_ok in *. rewrite T. apply cancel_Forall, W.
    + apply MainLoop_wakes_ok. unfold wakes_ok in *. rewrite T. apply cancel_Forall, W.
Qed.

(** X4.  From a state that is not idle and has no timeout pending,
    such as the state after the first [Init], every sequence of events
    leads to a state in which the host's handles are fresh; in which,
    while the system is idle, the handle it keeps is pending and the
    cycles its callback would advance are [idlemaxwait]; and in which no
    pending wake was armed for the sentinel -1 or for a wait of at most
    1 ms. *)
Theorem event_loop_keeps_the_wake_armed events s :
  timeouts s = [] -> status s <> SYSTEM_HALT ->
  handles_fresh (run events s) /\ wake_armed (run events s) /\ wakes_ok (run events s).
Proof.
  intros T Hs. destruct (run_inv events s (initial_inv s T Hs)) as (Fr&Ar).
  split; [exact Fr|]. split; [exact Ar|].
  assert (wakes_ok s) as W by (unfold wakes_ok; rewrite T; constructor).
  clear T Hs Fr Ar. revert s W. induction events as [|e events IH]; intros s W; [exact W|].
  rewrite run_cons. apply IH, dispatch_wakes_ok, W.
Qed.

Lemma HandleHalt_one_wake s :
  status s = SYSTEM_RUN -> timeouts s = [] -> one_wake (HandleHalt s).
Proof.
  intros R T. unfold one_wake.
  destruct (HandleHalt_cases s) as [(_&S1&T1&_)|(_&_&S1&T1&_&H1&_)]; rewrite S1, T1.
  - rewrite R, T. split; [discriminate|reflexivity].
  - rewrite T, H1. split; [|intros N; contradiction]. intros _. eauto.
Qed.

Lemma MainLoop_one_wake s : one_wake s -> one_wake (MainLoop s).
Proof.
  intros O. destruct (status s) eqn:Hs.
  2,3: rewrite MainLoop_not_run by congruence; exact O.
  rewrite (MainLoop_run s Hs).
  assert (timeouts s = []) as T by (apply O; congruence).
  pose proof (quantum_frame s) as Q. simpl in Q. destruct Q as (S1&T1&_).
  destruct (fst (quantum s)); [apply HandleHalt_one_wake; congruence|].
  unfold one_wake. rewrite S1, T1, Hs, T. split; [discriminate|reflexivity].
Qed.

Lemma pending_single x h w s :
  timeouts s = [(h, w)] -> pending x s <> None -> x = h /\ cancel x (timeouts s) = [].
Proof.
  unfold pending, cancel. intros T. rewrite T. simpl.
  destruct (Nat.eqb_spec h x) as [->|Ne]; simpl; [auto|congruence].
Qed.

(** X5.  At most one wake is pending, and exactly one while the system
    is idle, as long as no restart ([Init], [Reset] or a loaded image)
    arrives while the system is idle: every other event, and a restart
    of a system that is not idle, keeps this true. *)
Theorem one_wake_unless_restarted_while_idle e s :
  one_wake s -> (restarts e = true -> status s <> SYSTEM_HALT) ->
  one_wake (dispatch e s).
Proof.
  intros O Re.
  assert (forall s', keeps_wakes s s' -> status s' <> SYSTEM_HALT ->
                     status s <> SYSTEM_HALT -> one_wake s') as Stop.
  { intros s' (T&_) N' N. unfold one_wake. rewrite T.
    split; [intros; contradiction|]. intros _. apply O, N. }
  assert (forall s', keeps_wakes s s' -> status s' = status s -> one_wake s') as Same.
  { intros s' (T&_&_&K) E. unfold one_wake. rewrite T, E. split; [|apply O].
    intros Hs. destruct (proj1 O Hs) as (h&w&T0&H0). exists h, w.
    split; [exact T0|]. rewrite <- E in Hs. destruct (K Hs) as (_&Hh&_). congruence. }
  destruct e; cbn [dispatch].
  - apply Stop; [apply Init_keeps| |apply Re; reflexivity].
    unfold Init, CreateCPU. simpl.
    destruct (if String.eqb (cfg_arch system) "or1k" then _ else _); discriminate.
  - apply Stop; [apply Reset_keeps| |apply Re; reflexivity].
    unfold Reset. simpl. destruct (cpu_Reset _ _). discriminate.
  - apply Same; [keeps_wakes_tac|reflexivity].
  - destruct url as [u|buffer]; [apply Same; [keeps_wakes_tac|reflexivity]|].
    pose proof (LoadImageAndStart_keeps (inr buffer) s) as (K&_).
    unfold LoadImageAndStart in *.
    match goal with |- context [OnKernelLoaded buffer ?x] =>
      destruct (OnKernelLoaded_cases buffer x) as [(_&R&_)|(_&_&r&E)] end.
    + apply Stop; [exact K|congruence|apply Re; reflexivity].
    + apply Same; [exact K|]. rewrite E. reflexivity.
  - destruct (OnKernelLoaded_cases buffer s) as [(_&R&_)|(_&_&r&E)].
    + apply Stop; [apply OnKernelLoaded_keeps|congruence|apply Re; reflexivity].
    + apply Same; [apply OnKernelLoaded_keeps|]. rewrite E. reflexivity.
  - apply MainLoop_one_wake, O.
  - apply Same; [keeps_wakes_tac|reflexivity].
  - apply Same; [apply PrintState_keeps|]. unfold PrintState. simpl.
    pose proof (uart_step_frame 0%nat s) as F0.
    pose proof (uart_step_frame 1%nat (uart_step 0 s)) as F1. simpl in F0, F1.
    destruct F0 as (A0&_), F1 as (A1&_). congruence.
  - destruct (status s) eqn:Hs.
    1,2: rewrite RaiseInterrupt_not_idle by congruence;
         apply Same; [keeps_wakes_tac|exact Hs].
    destruct (RaiseInterrupt_idle line s Hs) as (s3&E&R&_&_&T&_).
    rewrite E. apply MainLoop_one_wake.
    destruct (proj1 O Hs) as (h&w&T0&H0). rewrite H0, T0 in T.
    unfold cancel in T. simpl in T. rewrite Nat.eqb_refl in T. simpl in T.
    unfold one_wake. rewrite R, T. split; [discriminate|reflexivity].
  - apply Same; [keeps_wakes_tac|reflexivity].
  - apply Same; [keeps_wakes_tac|reflexivity].
  - apply Same; [keeps_wakes_tac|reflexivity].
  - destruct (fire_cases handle s)
      as [(_&E)|(w&s1&P&T&_&[(Hs&_)|(Hs&R&E&_)])].
    + rewrite E. exact O.
    + exfalso. unfold pending in P. rewrite (proj2 O Hs) in P. discriminate.
    + rewrite E. apply MainLoop_one_wake.
      destruct (proj1 O Hs) as (h&w0&T0&_).
      destruct (pending_single handle h w0 s T0) as (_&C); [congruence|].
      unfold one_wake. rewrite R, T, C. split; [discriminate|reflexivity].
Qed.

(** X6.  [Reset] does not cancel a pending wake: the wake stays
    pending while the system is stopped.  A timeout that fires while the
    system is not idle, as this one does if nothing else happens, only
    leaves the host's table: the status, the CPU, memory, the timer, the
    counter and the idle bookkeeping are as before, and the CPU is
    neither stepped nor advanced. *)
Theorem leftover_wake_fires_without_effect h w s :
  pending h s = Some w ->
  (pending h (Reset s) = Some w /\ status (Reset s) = SYSTEM_STOP)
  /\ (status s <> SYSTEM_HALT ->
      status (fire h s) = status s /\ cpu (fire h s) = cpu s /\ ram (fire h s) = ram s
      /\ timer (fire h s) = timer s /\ ips (fire h s) = ips s
      /\ idletime (fire h s) = idletime s /\ idlemaxwait (fire h s) = idlemaxwait s
      /\ idletimeouthandle (fire h s) = idletimeouthandle s
      /\ pending h (fire h s) = None
      /\ calls (fire h s) = HostFire h :: calls s).
Proof.
  intros P. split.
  - unfold Reset. simpl. destruct (cpu_Reset _ _). simpl. split; [exact P|reflexivity].
  - intros Hs. unfold fire. rewrite P. unfold idle_callback. simpl.
    destruct (status s) eqn:E; [| |contradiction]; simpl.
    all: repeat split; try reflexivity; try exact E.
    all: unfold pending; simpl; rewrite find_cancel_same; reflexivity.
Qed.

(** X7.  The normal end of an idle period: when the timeout kept by an
    idle system fires, the state becomes RUNNING, the CPU clock is
    advanced once by the whole budget [idlemaxwait], the wake is no
    longer pending, and the quantum is resumed.  An early wake by a
    raise never advances the clock by more than this. *)
Theorem timeout_wakes_with_the_whole_budget s :
  status s = SYSTEM_HALT -> wake_armed s ->
  exists h w s1,
    idletimeouthandle s = Some h /\ pending h s = Some w
    /\ fire h s = MainLoop s1
    /\ status s1 = SYSTEM_RUN
    /\ calls s1 = CpuProgressTime (idlemaxwait s) :: HostFire h :: calls s
    /\ cpu s1 = cpu_ProgressTime (idlemaxwait s) (cpu s)
    /\ pending h s1 = None
    /\ ips s1 = ips s
    /\ elapsedCycles s <= idlemaxwait s.
Proof.
  intros Hs A. destruct (A Hs) as (h&w&Hh&P&D). exists h, w.
  unfold fire. rewrite P. unfold idle_callback. simpl. rewrite Hs. simpl.
  eexists. split; [exact Hh|]. split; [reflexivity|]. split; [reflexivity|].
  simpl. rewrite D. repeat split.
  - unfold pending. simpl. rewrite find_cancel_same. reflexivity.
  - unfold elapsedCycles. lia.
Qed.

(** X8.  The early wake has no lower clamp.  When the clock reading
    taken by a raise is earlier than the reading kept from idle entry
    (the wall clock was set back), the CPU clock is moved by a negative
    number of cycles: [ProgressTime] is called with
    [(now - idletime) * ticksperms < 0]. *)
Theorem early_wake_is_not_clamped_below line s :
  status s = SYSTEM_HALT ->
  utils_GetMilliseconds (clockreads s) < idletime s ->
  0 < ticksperms s -> 0 <= idlemaxwait s ->
  elapsedCycles s = (utils_GetMilliseconds (clockreads s) - idletime s) * ticksperms s
  /\ elapsedCycles s < 0
  /\ In (CpuProgressTime (elapsedCycles s)) (calls (RaiseInterrupt line s)).
Proof.
  intros Hs Back Tk Mx.
  assert ((utils_GetMilliseconds (clockreads s) - idletime s) * ticksperms s < 0) as Neg
    by nia.
  assert (elapsedCycles s
          = (utils_GetMilliseconds (clockreads s) - idletime s) * ticksperms s) as E
    by (unfold elapsedCycles; lia).
  split; [exact E|]. split; [lia|].
  destruct (RaiseInterrupt_idle line s Hs) as (s3&R&_&C&_).
  rewrite R. destruct (MainLoop_calls_extend s3) as (q&Q). rewrite Q, C.
  apply List.in_or_app. right. left. reflexivity.
Qed.

Lemma OnKernelLoaded_counts buffer s :
  stepped (calls (outcome_state (OnKernelLoaded buffer s))) = stepped (calls s).
Proof.
  unfold OnKernelLoaded. simpl.
  destruct (materialize buffer (ram s)) as [[r n]|[r n]]; simpl; [|reflexivity].
  unfold commit, normalize, PatchKernel. simpl.
  destruct (cpu_littleendian (cpu s)); simpl.
  - destruct (cpu_Reset (cpu s) r) as [c1 r1]. simpl.
    destruct (cpu_AnalyzeImage c1 r1) as [c2 r2]. reflexivity.
  - destruct (cpu_Reset (cpu s) _) as [c1 r1]. simpl.
    destruct (cpu_AnalyzeImage c1 r1) as [c2 r2]. reflexivity.
Qed.

Lemma MainLoop_counted s :
  ips (MainLoop s) - ips s = stepped (calls (MainLoop s)) - stepped (calls s).
Proof.
  destruct (status s) eqn:Hs.
  2,3: rewrite MainLoop_not_run by congruence; lia.
  destruct (MainLoop_running s Hs) as (_&_&E). lia.
Qed.

Lemma dispatch_counted e s :
  zeroes_ips e = false ->
  ips (dispatch e s) - ips s = stepped (calls (dispatch e s)) - stepped (calls s).
Proof.
  intros Z. destruct e; try discriminate; cbn [dispatch].
  - simpl. lia.
  - destruct url as [u|buffer]; [simpl; lia|].
    destruct (LoadImageAndStart_keeps (inr buffer) s) as (_&I). rewrite I.
    unfold LoadImageAndStart. rewrite OnKernelLoaded_counts. simpl. lia.
  - destruct (OnKernelLoaded_keeps buffer s) as (_&I).
    rewrite I, OnKernelLoaded_counts. lia.
  - apply MainLoop_counted.
  - destruct (PrintState_keeps s) as (_&I). rewrite I. unfold PrintState. simpl.
    destruct (uart_step_counts 0%nat s) as (_&C0).
    destruct (uart_step_counts 1%nat (uart_step 0 s)) as (_&C1). lia.
  - destruct (status s) eqn:Hs.
    1,2: rewrite RaiseInterrupt_not_idle by congruence; simpl; lia.
    destruct (RaiseInterrupt_idle line s Hs) as (s3&E&_&C&_&_&_&I&_).
    rewrite E. pose proof (MainLoop_counted s3) as M. rewrite C, I in M. simpl in M. lia.
  - simpl. lia.
  - simpl. lia.
  - simpl. lia.
  - destruct (fire_cases handle s)
      as [(_&E)|(w&s1&_&_&_&[(_&_&E&_&_&I&C)|(_&_&E&I&C)])]; rewrite E.
    + lia.
    + rewrite I, C. simpl. lia.
    + pose proof (MainLoop_counted s1) as M. rewrite C, I in M. simpl in M. lia.
Qed.

(** X9.  Between two zeroings the telemetry counter and the timer see
    the same instructions: over any events other than [GetIPS], [Reset]
    and [Init], the counter grows by exactly the total of the step counts
    handed to [timer.Update]. *)
Theorem ips_grows_by_the_steps_given_to_the_timer events s :
  Forall (fun e => zeroes_ips e = false) events ->
  ips (run events s) - ips s
  = stepped (calls (run events s)) - stepped (calls s).
Proof.
  intros F. revert s. induction F as [|e events Z F IH]; intros s; [simpl; lia|].
  rewrite !run_cons. pose proof (dispatch_counted e s Z). pose proof (IH (dispatch e s)).
  lia.
Qed.

(** ** More about the configuration patch *)

Lemma PatchKernel_write_same msize (m : list Z) (i : nat) :
  SizeField msize m i -> PatchKernel_write msize m i = m.
Proof.
  intros (H24&H25&H26&H27). unfold PatchKernel_write, JS.store.
  change (JS.ToUint8 0) with 0.
  rewrite (list_insert_id m _ _ H24), (list_insert_id m _ _ H25).
  rewrite (list_insert_id m _ _ H26). apply (list_insert_id m _ _ H27).
Qed.

Lemma scan_without_match msize (n : nat) (m : list Z) :
  (forall j, (j < n)%nat -> PatchKernel_found m j = false) -> PatchKernel_scan msize n m = m.
Proof.
  unfold PatchKernel_scan. induction n as [|n IH]; intros N; [reflexivity|].
  rewrite seq_S, fold_left_app. cbn [Nat.add fold_left].
  rewrite IH by (intros; apply N; lia).
  unfold PatchKernel_step. rewrite N by lia. reflexivity.
Qed.

Lemma set_ram_same s : set_ram (mkRAM (uint8mem (ram s))) s = s.
Proof. destruct s as [? ? ? [m] ? ? ? ? ? ? ? ? ? ? ? ? ?]. reflexivity. Qed.

(** X10.  With [memorysize = 31], which is what [Init] keeps for the
    usual configuration of 32 MB, the placeholder 01 F0 00 00 already is
    the size to write: [PatchKernel] leaves every memory unchanged. *)
Theorem PatchKernel_is_the_identity_for_31_MB length s :
  memorysize s = 31 -> PatchKernel length s = s.
Proof.
  intros M. unfold PatchKernel. rewrite M.
  assert (forall m i, PatchKernel_step 31 m i = m) as Step.
  { intros m i. unfold PatchKernel_step.
    destruct (PatchKernel_found m i) eqn:F; [|reflexivity].
    apply PatchKernel_found_iff in F. destruct F as (_&P).
    apply PatchKernel_write_same. exact P. }
  assert (PatchKernel_scan 31 length (uint8mem (ram s)) = uint8mem (ram s)) as E.
  { unfold PatchKernel_scan. generalize (seq 0 length). intros js.
    induction js as [|j js IH]; simpl; [reflexivity|]. rewrite Step. exact IH. }
  rewrite E. apply set_ram_same.
Qed.

(** X11.  The bounds of the patch.  [PatchKernel] never changes the
    size of memory, never changes one of its first 24 bytes and never
    changes a byte at offset [length + 27] or beyond, though it can
    change bytes up to 27 places past the scanned prefix.  It changes
    nothing at all when no position below [length] passes the eleven
    tests: when [length] is 0, and when memory has fewer than 28
    bytes. *)
Theorem PatchKernel_bounds length s :
  List.length (uint8mem (ram (PatchKernel length s))) = List.length (uint8mem (ram s))
  /\ (forall k, (k < 24 \/ length + 27 <= k)%nat ->
                uint8mem (ram (PatchKernel length s)) !! k = uint8mem (ram s) !! k)
  /\ ((forall j, (j < length)%nat -> PatchKernel_found (uint8mem (ram s)) j = false) ->
      PatchKernel length s = s)
  /\ (length = 0%nat -> PatchKernel length s = s)
  /\ ((List.length (uint8mem (ram s)) < 28)%nat -> PatchKernel length s = s).
Proof.
  assert ((forall j, (j < length)%nat -> PatchKernel_found (uint8mem (ram s)) j = false) ->
          PatchKernel length s = s) as None.
  { intros N. unfold PatchKernel. rewrite scan_without_match by exact N.
    apply set_ram_same. }
  split; [apply PatchKernel_scan_length|]. split; [|split; [exact None|split]].
  - intros k K. unfold PatchKernel. simpl.
    destruct (PatchKernel_scan_frame (memorysize s) length (uint8mem (ram s)) k)
      as [E|(j&L&_&_&W)]; [exact E|lia].
  - intros ->. apply None. intros j L. lia.
  - intros Short. apply None. intros j _. unfold PatchKernel_found.
    apply andb_false_intro2. unfold JS.byte_is.
    rewrite lookup_ge_None_2 by lia. reflexivity.
Qed.

Lemma size_bytes_big_endian M :
  BE32 (JS.ToUint8 (JS.sar (M * 0x100000) 24)) (JS.ToUint8 (JS.sar (M * 0x100000) 16)) 0 0
  = (M * 0x100000) mod 2 ^ 32.
Proof.
  unfold BE32, JS.ToUint8, JS.sar, JS.ToInt32. rewrite !Z.shiftr_div_pow2 by lia.
  change (2 ^ 31) with 2147483648. change (2 ^ 32) with 4294967296.
  change (2 ^ 24) with 16777216. change (2 ^ 16) with 65536. change (2 ^ 8) with 256.
  Z.div_mod_to_equations. lia.
Qed.

(** X12.  What the patched field means.  At a position that held the
    marker and the placeholder, the four bytes of the size field, read
    as a big-endian 32-bit number, are [memorysize * 0x100000] modulo
    2^32: the size of the RAM in bytes whenever [memorysize] is below
    4096 MB. *)
Theorem PatchKernel_field_is_the_size_in_bytes length s i :
  (i < length)%nat ->
  Marker (uint8mem (ram s)) i -> Placeholder (uint8mem (ram s)) i ->
  exists b0 b1 b2 b3,
    Field b0 b1 b2 b3 (uint8mem (ram (PatchKernel length s))) i
    /\ BE32 b0 b1 b2 b3 = (memorysize s * 0x100000) mod 2 ^ 32
    /\ (0 <= memorysize s < 4096 -> BE32 b0 b1 b2 b3 = memorysize s * 0x100000).
Proof.
  intros L M P.
  destruct (PatchKernel_scan_patches (memorysize s) length _ i L M P) as (_&F).
  eexists _, _, _, _. split; [exact F|].
  rewrite size_bytes_big_endian. split; [reflexivity|].
  intros B. apply Z.mod_small. lia.
Qed.

(** ** More about the loader and [Init] *)




(** ** Wakes left over, telemetry and configuration *)

Lemma find_cancel_other (h x : nat) (l : list (nat * Wake)) :
  h <> x ->
  List.find (fun p => Nat.eqb (fst p) h) (cancel x l)
  = List.find (fun p => Nat.eqb (fst p) h) l.
Proof.
  intros Ne. induction l as [|[y w] l IH]; simpl; [reflexivity|].
  destruct (Nat.eqb_spec y x) as [->|Nx]; simpl.
  - destruct (Nat.eqb_spec x h); [congruence|exact IH].
  - rewrite IH. reflexivity.
Qed.

(** X15.  The callback of a wake does not ask whether it is the wake
    the system keeps.  Any pending timeout that fires while the system
    is idle, also one left over from an idle period that a restart ended,
    sets the status to RUNNING, advances the CPU clock by the cycles
    captured when that timeout was armed, whatever [idlemaxwait] is now,
    and resumes the quantum; the handle the system keeps is not changed
    and no other pending wake is cancelled. *)
Theorem any_pending_wake_ends_the_idle_period h w s :
  status s = SYSTEM_HALT -> pending h s = Some w ->
  exists s1,
    fire h s = MainLoop s1
    /\ status s1 = SYSTEM_RUN
    /\ calls s1 = CpuProgressTime (wake_delta w) :: HostFire h :: calls s
    /\ cpu s1 = cpu_ProgressTime (wake_delta w) (cpu s)
    /\ idletimeouthandle s1 = idletimeouthandle s
    /\ idlemaxwait s1 = idlemaxwait s
    /\ pending h s1 = None
    /\ (forall h', h' <> h -> pending h' s1 = pending h' s).
Proof.
  intros Hs P. unfold fire. rewrite P. unfold idle_callback. simpl. rewrite Hs. simpl.
  eexists. split; [reflexivity|]. simpl.
  split; [reflexivity|]. split; [reflexivity|]. split; [reflexivity|].
  split; [reflexivity|]. split; [reflexivity|]. unfold pending. simpl. split.
  - rewrite find_cancel_same. reflexivity.
  - intros h' Ne. rewrite find_cancel_other by exact Ne. reflexivity.
Qed.

Lemma uart_step_reported n s : reported (calls (uart_step n s)) = reported (calls s).
Proof.
  unfold uart_step. destruct (uartdev n (devices s)); [|reflexivity].
  destruct (uartdev_Step n (devices s) (cpu s)) as [d c]. reflexivity.
Qed.

Lemma quantum_reported s : reported (calls (snd (quantum s))) = reported (calls s).
Proof.
  unfold quantum. simpl.
  destruct (cpu_Step _ _ (cpu s) (ram s)) as [[left c] r]. simpl.
  rewrite !uart_step_reported. reflexivity.
Qed.

Lemma HandleHalt_reported s : reported (calls (HandleHalt s)) = reported (calls s).
Proof.
  unfold HandleHalt. simpl.
  destruct (_ =? -1); [reflexivity|]. destruct (PrimFloat.leb _ 1); [reflexivity|].
  destruct (PrimFloat.ltb 1000 _); reflexivity.
Qed.

Lemma MainLoop_reported s : reported (calls (MainLoop s)) = reported (calls s).
Proof.
  destruct (status s) eqn:Hs.
  2,3: rewrite MainLoop_not_run by congruence; reflexivity.
  rewrite (MainLoop_run s Hs).
  destruct (fst (quantum s)); rewrite ?HandleHalt_reported; apply quantum_reported.
Qed.

Lemma OnKernelLoaded_reported buffer s :
  reported (calls (outcome_state (OnKernelLoaded buffer s))) = reported (calls s).
Proof.
  unfold OnKernelLoaded. simpl.
  destruct (materialize buffer (ram s)) as [[r n]|[r n]]; simpl; [|reflexivity].
  unfold commit, normalize, PatchKernel. simpl.
  destruct (cpu_littleendian (cpu s)); simpl.
  - destruct (cpu_Reset (cpu s) r) as [c1 r1]. simpl.
    destruct (cpu_AnalyzeImage c1 r1) as [c2 r2]. reflexivity.
  - destruct (cpu_Reset (cpu s) _) as [c1 r1]. simpl.
    destruct (cpu_AnalyzeImage c1 r1) as [c2 r2]. reflexivity.
Qed.

Lemma dispatch_reported e s :
  zeroes_ips e = false -> reported (calls (dispatch e s)) = reported (calls s).
Proof.
  intros Z. destruct e; try discriminate; cbn [dispatch].
  - reflexivity.
  - destruct url as [u|buffer]; [reflexivity|].
    unfold LoadImageAndStart. rewrite OnKernelLoaded_reported. reflexivity.
  - apply OnKernelLoaded_reported.
  - apply MainLoop_reported.
  - unfold PrintState. simpl. rewrite !uart_step_reported. reflexivity.
  - destruct (status s) eqn:Hs.
    1,2: rewrite RaiseInterrupt_not_idle by congruence; reflexivity.
    destruct (RaiseInterrupt_idle line s Hs) as (s3&E&_&C&_).
    rewrite E, MainLoop_reported, C. reflexivity.
  - reflexivity.
  - reflexivity.
  - reflexivity.
  - destruct (fire_cases handle s)
      as [(_&E)|(w&s1&_&_&_&[(_&_&E&_&_&_&C)|(_&_&E&_&C)])]; rewrite E.
    + reflexivity.
    + rewrite C. reflexivity.
    + rewrite MainLoop_reported, C. reflexivity.
Qed.

(** X16.  Telemetry loses no instruction and counts none twice.  Over
    any events other than [Init] and [Reset], the values sent in answer
    to ["GetIPS"] and the value the counter holds at the end add up to
    the value it held at the start and the step counts handed to
    [timer.Update] in between. *)
Theorem telemetry_accounts_for_every_step events s :
  Forall (fun e => zeroes_ips e = false \/ e = EvGetIPS) events ->
  (reported (calls (run events s)) - reported (calls s)) + ips (run events s)
  = ips s + (stepped (calls (run events s)) - stepped (calls s)).
Proof.
  intros F. revert s. induction F as [|e events Z F IH]; intros s; [simpl; lia|].
  rewrite !run_cons. pose proof (IH (dispatch e s)) as I.
  destruct Z as [Z| ->].
  - pose proof (dispatch_counted e s Z). pose proof (dispatch_reported e s Z). lia.
  - assert (reported (calls (dispatch EvGetIPS s)) = ips s + reported (calls s)
            /\ ips (dispatch EvGetIPS s) = 0
            /\ stepped (calls (dispatch EvGetIPS s)) = stepped (calls s)) as (A&B&C)
      by (cbn [dispatch]; unfold GetIPS; simpl; auto).
    lia.
Qed.





End FurtherProperties.

(** * The properties on the small machine *)

Section Examples.

#[local] Existing Instances Toy.cpu_contract Toy.timer_contract Toy.devices_contract
  Toy.loader_contract.

(** Closed statements are settled by evaluation. *)
Ltac evaluate :=
  repeat match goal with |- _ /\ _ => split end;
  vm_compute; solve [reflexivity | congruence | discriminate].

(** [Math.floor] on some values of the idle wait. *)
Example Math_floor_values :
  JS.Math_floor 98.75%float = 98%float /\ JS.Math_floor 99.25%float = 99%float
  /\ JS.Math_floor 0.5%float = 0%float /\ JS.Math_floor (-0.5)%float = (-1)%float
  /\ JS.Math_floor 7%float = 7%float.
Proof. evaluate. Qed.

(** The running example: booted, the machine runs three quanta and
    idles for 99 ms with 1975000 cycles budgeted. *)
Example idle_machine :
  status Toy.booted = SYSTEM_RUN /\ status Toy.idle = SYSTEM_HALT
  /\ timeouts Toy.idle = [(0%nat, mkWake 99%float 1975000)]
  /\ idlemaxwait Toy.idle = 1975000 /\ idletime Toy.idle = 1000 /\ ips Toy.idle = 2503.
Proof. evaluate. Qed.

(** C1 on the idle machine: a raise of line 2, 30 ms after idle entry,
    advances the clock by 600000 cycles. *)
Lemma RaiseInterrupt_while_idle_witness :
  status Toy.idle = SYSTEM_HALT
  /\ exists s3,
       RaiseInterrupt 2 Toy.idle = MainLoop s3
       /\ calls s3 = CpuProgressTime (elapsedCycles Toy.idle)
                     :: HostClearTimeout (idletimeouthandle Toy.idle)
                     :: CpuRaiseInterrupt 2 (-1) :: calls Toy.idle
       /\ elapsedCycles Toy.idle <= idlemaxwait Toy.idle
       /\ status s3 = SYSTEM_RUN.
Proof.
  assert (status Toy.idle = SYSTEM_HALT) as Hs by (vm_compute; reflexivity).
  destruct (RaiseInterrupt_while_idle_wakes_early 2 Toy.idle Hs) as (s3&E&C&_&L&_&R&_).
  split; [exact Hs|]. exists s3. auto.
Defined.

Example early_wake_advance : elapsedCycles Toy.idle = 600000.
Proof. vm_compute. reflexivity. Qed.

(** C2 as stated fails: a raise of the masked line 9 finds the CPU
    still idle, so the resumed quantum idles again and the raise returns
    in the state IDLE, with a new wake armed. *)
Lemma RaiseInterrupt_may_return_idle :
  status Toy.idle = SYSTEM_HALT
  /\ status (RaiseInterrupt 9 Toy.idle) <> SYSTEM_RUN
  /\ status (RaiseInterrupt 9 Toy.idle) = SYSTEM_HALT
  /\ timeouts (RaiseInterrupt 9 Toy.idle) = [(1%nat, mkWake 69%float 1375000)].
Proof. evaluate. Qed.

Lemma RaiseInterrupt_retires_armed_wake_witness :
  (handles_fresh Toy.idle /\ status Toy.idle = SYSTEM_HALT
   /\ idletimeouthandle Toy.idle = Some 0%nat
   /\ pending 0 Toy.idle = Some (mkWake 99%float 1975000))
  /\ pending 0 (RaiseInterrupt 9 Toy.idle) = None
  /\ (forall events,
        pending 0 (run events (RaiseInterrupt 9 Toy.idle)) = None
        /\ fires 0 (calls (run events (RaiseInterrupt 9 Toy.idle))) = fires 0 (calls Toy.idle)).
Proof.
  assert (handles_fresh Toy.idle) as Fr.
  { unfold handles_fresh. vm_compute. repeat constructor. }
  assert (status Toy.idle = SYSTEM_HALT) as Hs by (vm_compute; reflexivity).
  assert (idletimeouthandle Toy.idle = Some 0%nat) as Hh by (vm_compute; reflexivity).
  assert (pending 0 Toy.idle = Some (mkWake 99%float 1975000)) as Hp
    by (vm_compute; reflexivity).
  destruct (RaiseInterrupt_retires_armed_wake 9 Toy.idle 0%nat _ Fr Hs Hh Hp)
    as (P&F&_).
  split; [auto|]. split; [exact P|exact F].
Defined.




(** With the default 32 MB the patch rewrites the placeholder with
    itself: 01 F0 00 00 is the size of 31 MB. *)
Example PatchKernel_default_size :
  take 4 (drop 28 (uint8mem (ram (PatchKernel 36 (Toy.with_dtb 32))))) = [0x01; 0xF0; 0; 0].
Proof. vm_compute. reflexivity. Qed.

(** C4 on the booted machine. *)
Lemma MainLoop_counts_one_more_witness :
  status Toy.booted = SYSTEM_RUN
  /\ ips (MainLoop Toy.booted) - ips Toy.booted
     = quantumBudget Toy.booted - unusedBudget Toy.booted + 1.
Proof.
  assert (status Toy.booted = SYSTEM_RUN) as R by (vm_compute; reflexivity).
  destruct (MainLoop_counts_one_more_than_consumed Toy.booted R) as (E&_).
  split; [exact R|exact E].
Defined.

(** C4 as stated fails: the first quantum of the booted machine uses
    its whole budget of 1000 instructions and adds 1001 to the counter,
    not [max(1000 - 0, 1) = 1000]. *)
Lemma MainLoop_count_is_not_floored :
  status Toy.booted = SYSTEM_RUN
  /\ quantumBudget Toy.booted = 1000 /\ unusedBudget Toy.booted = 0
  /\ ips (MainLoop Toy.booted) - ips Toy.booted = 1001
  /\ ips (MainLoop Toy.booted) - ips Toy.booted
     <> Z.max (quantumBudget Toy.booted - unusedBudget Toy.booted) 1.
Proof. evaluate. Qed.


(** C6 on a compressed image of six bytes, loaded into the empty
    memory of a 32 MB machine (62 bytes here). *)
Lemma compressed_image_witness :
  (elf_IsELF Toy.bz6 = false /\ bzip2_IsBZIP2 Toy.bz6 = true)
  /\ materialize Toy.bz6 (mkRAM (replicate 62 0))
     = Returned (mkRAM ([10; 20; 30; 40; 50; 60] ++ replicate 56 0), 6%nat).
Proof.
  assert (elf_IsELF Toy.bz6 = false) as E by (vm_compute; reflexivity).
  assert (bzip2_IsBZIP2 Toy.bz6 = true) as B by (vm_compute; reflexivity).
  destruct (compressed_image_is_inflated_from_zero Toy.bz6 (mkRAM (replicate 62 0)) E B)
    as (_&_&_&M&_).
  split; [auto|]. rewrite M by (vm_compute; reflexivity). vm_compute. reflexivity.
Defined.

(** C6 as stated fails when the decompressed bytes do not fit into
    memory: on the machine configured with 1 MB the RAM is empty, the
    six bytes handed out are all dropped, yet [length] is 6, and the copy
    of the "decompressed region" holds six zeros. *)
Lemma inflated_length_counts_dropped_bytes :
  (elf_IsELF Toy.bz6 = false /\ bzip2_IsBZIP2 Toy.bz6 = true)
  /\ fst (bzip2_simple Toy.bz6) = [10; 20; 30; 40; 50; 60]
  /\ uint8mem (ram Toy.tiny) = []
  /\ materialize Toy.bz6 (ram Toy.tiny) = Returned (mkRAM [], 6%nat)
  /\ JS.copy_loop [] (JS.new_Uint8Array 6) 6 = [0; 0; 0; 0; 0; 0].
Proof. evaluate. Qed.

(** A compressed ELF image: the stand-in extraction places the bytes
    that follow the ELF magic of the decompressed copy at address 0. *)
Example compressed_elf_image :
  uint8mem (fst (outcome_state (materialize Toy.bzelf (mkRAM (replicate 12 0)))))
  = [7; 8; 9; 0x46; 7; 8; 9; 0; 0; 0; 0; 0].
Proof. vm_compute. reflexivity. Qed.







(** C10 on the idle machine: a directed raise leaves it idle with its
    wake pending, a broadcast raise of the same line wakes it. *)
Example soft_interrupt_leaves_idle :
  status (RaiseSoftInterrupt 2 0 Toy.idle) = SYSTEM_HALT
  /\ timeouts (RaiseSoftInterrupt 2 0 Toy.idle) = timeouts Toy.idle
  /\ status (RaiseInterrupt 2 Toy.idle) = SYSTEM_RUN
  /\ timeouts (RaiseInterrupt 2 Toy.idle) = [].
Proof. evaluate. Qed.

End Examples.

(** * The further properties on the small machine *)

Section FurtherExamples.

#[local] Existing Instances Toy.cpu_contract Toy.timer_contract Toy.devices_contract
  Toy.loader_contract.

Ltac evaluated :=
  repeat match goal with |- _ /\ _ => split end;
  vm_compute; solve [reflexivity | congruence | discriminate].

(** X2 on the idle machine after [Reset]: execute requests, a raise,
    the wake left over from the idle period and a second [Reset] leave
    it stopped. *)
Lemma stopped_system_waits_witness :
  (status (Reset Toy.idle) = SYSTEM_STOP
   /\ Forall (fun e => starts e = false)
        [EvExecute; EvRaiseInterrupt 2; EvTimeout 0; EvLoadAndStart (inl "vmlinux"%string);
         EvReset; EvExecute])
  /\ status (run [EvExecute; EvRaiseInterrupt 2; EvTimeout 0;
                  EvLoadAndStart (inl "vmlinux"%string); EvReset; EvExecute]
               (Reset Toy.idle)) = SYSTEM_STOP
  /\ advances (calls (run [EvExecute; EvRaiseInterrupt 2; EvTimeout 0;
                           EvLoadAndStart (inl "vmlinux"%string); EvReset; EvExecute]
                        (Reset Toy.idle)))
     = advances (calls (Reset Toy.idle)).
Proof.
  assert (status (Reset Toy.idle) = SYSTEM_STOP) as Hs by (vm_compute; reflexivity).
  assert (Forall (fun e => starts e = false)
            [EvExecute; EvRaiseInterrupt 2; EvTimeout 0; EvLoadAndStart (inl "vmlinux"%string);
             EvReset; EvExecute]) as Hf by (repeat constructor).
  split; [split; [exact Hs|exact Hf]|].
  exact (stopped_system_waits_for_an_image _ (Reset Toy.idle) Hs Hf).
Defined.

(** X3 on the idle machine. *)
Lemma idle_system_ignores_witness :
  (status Toy.idle = SYSTEM_HALT
   /\ Forall (fun e => wakes e = false /\ restarts e = false)
        [EvExecute; EvClearInterrupt 2; EvRaiseSoftInterrupt 2 0; EvGetIPS;
         EvPrintOnAbort; EvLoadAndStart (inl "vmlinux"%string)])
  /\ status (run [EvExecute; EvClearInterrupt 2; EvRaiseSoftInterrupt 2 0; EvGetIPS;
                  EvPrintOnAbort; EvLoadAndStart (inl "vmlinux"%string)] Toy.idle)
     = SYSTEM_HALT
  /\ timeouts (run [EvExecute; EvClearInterrupt 2; EvRaiseSoftInterrupt 2 0; EvGetIPS;
                    EvPrintOnAbort; EvLoadAndStart (inl "vmlinux"%string)] Toy.idle)
     = timeouts Toy.idle.
Proof.
  assert (status Toy.idle = SYSTEM_HALT) as Hs by (vm_compute; reflexivity).
  assert (Forall (fun e => wakes e = false /\ restarts e = false)
            [EvExecute; EvClearInterrupt 2; EvRaiseSoftInterrupt 2 0; EvGetIPS;
             EvPrintOnAbort; EvLoadAndStart (inl "vmlinux"%string)]) as Hf
    by (repeat constructor).
  destruct (idle_system_ignores_other_events _ Toy.idle Hs Hf) as (A&B&_).
  split; [split; [exact Hs|exact Hf]|]. split; [exact A|exact B].
Defined.

(** X4 from the state in which the first command arrives. *)
Lemma event_loop_keeps_the_wake_armed_witness :
  (timeouts Toy.blank = [] /\ status Toy.blank <> SYSTEM_HALT)
  /\ handles_fresh (run [EvInit Toy.or1k32; EvKernelLoaded Toy.flat40; EvExecute; EvExecute;
                         EvExecute; EvRaiseInterrupt 9; EvReset; EvTimeout 1] Toy.blank)
  /\ wake_armed (run [EvInit Toy.or1k32; EvKernelLoaded Toy.flat40; EvExecute; EvExecute;
                      EvExecute; EvRaiseInterrupt 9; EvReset; EvTimeout 1] Toy.blank)
  /\ wakes_ok (run [EvInit Toy.or1k32; EvKernelLoaded Toy.flat40; EvExecute; EvExecute;
                    EvExecute; EvRaiseInterrupt 9; EvReset; EvTimeout 1] Toy.blank).
Proof.
  assert (timeouts Toy.blank = []) as Ht by reflexivity.
  assert (status Toy.blank <> SYSTEM_HALT) as Hs by discriminate.
  split; [split; [exact Ht|exact Hs]|].
  exact (event_loop_keeps_the_wake_armed _ Toy.blank Ht Hs).
Defined.

Lemma idle_one_wake : one_wake Toy.idle.
Proof.
  split.
  - intros _. exists 0%nat, (mkWake 99%float 1975000). evaluated.
  - intros N. exfalso. apply N. vm_compute. reflexivity.
Qed.

(** X5 on the idle machine: a raise of the masked line 9 retires the
    wake and arms another. *)
Lemma one_wake_witness :
  (one_wake Toy.idle /\ (restarts (EvRaiseInterrupt 9) = true -> status Toy.idle <> SYSTEM_HALT))
  /\ one_wake (dispatch (EvRaiseInterrupt 9) Toy.idle).
Proof.
  assert (restarts (EvRaiseInterrupt 9) = true -> status Toy.idle <> SYSTEM_HALT) as Hr
    by (intros R; discriminate R).
  split; [split; [exact idle_one_wake|exact Hr]|].
  exact (one_wake_unless_restarted_while_idle (EvRaiseInterrupt 9) Toy.idle idle_one_wake Hr).
Defined.

(** X6 on the idle machine after [Reset]: the wake armed on idle entry
    is still pending, and fires without effect. *)
Lemma leftover_wake_witness :
  pending 0 (Reset Toy.idle) = Some (mkWake 99%float 1975000)
  /\ pending 0 (Reset (Reset Toy.idle)) = Some (mkWake 99%float 1975000)
  /\ status (fire 0 (Reset Toy.idle)) = status (Reset Toy.idle)
  /\ cpu (fire 0 (Reset Toy.idle)) = cpu (Reset Toy.idle)
  /\ calls (fire 0 (Reset Toy.idle)) = HostFire 0 :: calls (Reset Toy.idle).
Proof.
  assert (pending 0 (Reset Toy.idle) = Some (mkWake 99%float 1975000)) as Hp
    by (vm_compute; reflexivity).
  assert (status (Reset Toy.idle) <> SYSTEM_HALT) as Hs by (vm_compute; discriminate).
  destruct (leftover_wake_fires_without_effect 0 _ (Reset Toy.idle) Hp) as ((P&_)&F).
  destruct (F Hs) as (A&B&_&_&_&_&_&_&_&C).
  split; [exact Hp|]. split; [exact P|]. split; [exact A|]. split; [exact B|exact C].
Defined.

Lemma idle_wake_armed : wake_armed Toy.idle.
Proof. intros _. exists 0%nat, (mkWake 99%float 1975000). evaluated. Qed.

(** X7 on the idle machine: the wake fires after its 99 ms and the
    clock is advanced by the 1975000 cycles budgeted. *)
Lemma timeout_wakes_witness :
  (status Toy.idle = SYSTEM_HALT /\ wake_armed Toy.idle)
  /\ exists s1,
       fire 0 Toy.idle = MainLoop s1
       /\ status s1 = SYSTEM_RUN
       /\ calls s1 = CpuProgressTime (idlemaxwait Toy.idle) :: HostFire 0 :: calls Toy.idle
       /\ idlemaxwait Toy.idle = 1975000.
Proof.
  assert (status Toy.idle = SYSTEM_HALT) as Hs by (vm_compute; reflexivity).
  destruct (timeout_wakes_with_the_whole_budget Toy.idle Hs idle_wake_armed)
    as (h&w&s1&Hh&_&F&R&C&_).
  assert (h = 0%nat) as -> by (vm_compute in Hh; congruence).
  split; [split; [exact Hs|exact idle_wake_armed]|].
  exists s1. split; [exact F|]. split; [exact R|]. split; [exact C|].
  vm_compute. reflexivity.
Defined.

(** X9 on the booted machine. *)
Lemma ips_grows_witness :
  Forall (fun e => zeroes_ips e = false)
    [EvExecute; EvExecute; EvExecute; EvRaiseInterrupt 2; EvPrintOnAbort]
  /\ ips (run [EvExecute; EvExecute; EvExecute; EvRaiseInterrupt 2; EvPrintOnAbort] Toy.booted)
     - ips Toy.booted
     = stepped (calls (run [EvExecute; EvExecute; EvExecute; EvRaiseInterrupt 2;
                            EvPrintOnAbort] Toy.booted))
       - stepped (calls Toy.booted).
Proof.
  assert (Forall (fun e => zeroes_ips e = false)
            [EvExecute; EvExecute; EvExecute; EvRaiseInterrupt 2; EvPrintOnAbort]) as Hf
    by (repeat constructor).
  split; [exact Hf|].
  exact (ips_grows_by_the_steps_given_to_the_timer _ Toy.booted Hf).
Defined.

Example ips_grows_values :
  ips (run [EvExecute; EvExecute; EvExecute; EvRaiseInterrupt 2; EvPrintOnAbort] Toy.booted)
  - ips Toy.booted
  = stepped (calls (run [EvExecute; EvExecute; EvExecute; EvRaiseInterrupt 2;
                         EvPrintOnAbort] Toy.booted))
    - stepped (calls Toy.booted)
  /\ 0 < ips (run [EvExecute; EvExecute; EvExecute; EvRaiseInterrupt 2; EvPrintOnAbort]
                Toy.booted) - ips Toy.booted.
Proof. evaluated. Qed.

(** X10 on the machine configured with 32 MB. *)
Lemma PatchKernel_identity_witness :
  memorysize (Toy.with_dtb 32) = 31
  /\ PatchKernel 36 (Toy.with_dtb 32) = Toy.with_dtb 32.
Proof.
  assert (memorysize (Toy.with_dtb 32) = 31) as M by (vm_compute; reflexivity).
  split; [exact M|].
  exact (PatchKernel_is_the_identity_for_31_MB 36 (Toy.with_dtb 32) M).
Defined.

(** X11: a scan of the first five bytes finds the marker at byte 4 and
    writes the bytes 28 and 29, beyond the scanned prefix. *)
Example PatchKernel_writes_past_the_prefix :
  uint8mem (ram (Toy.with_dtb 64)) !! 28%nat = Some 0x01
  /\ uint8mem (ram (PatchKernel 5 (Toy.with_dtb 64))) !! 28%nat = Some 0x03
  /\ PatchKernel 4 (Toy.with_dtb 64) = Toy.with_dtb 64.
Proof. evaluated. Qed.

(** X12 on the machine configured with 64 MB: the field reads
    63 * 0x100000. *)
Lemma PatchKernel_field_witness :
  ((4 < 36)%nat /\ Marker (uint8mem (ram (Toy.with_dtb 64))) 4
   /\ Placeholder (uint8mem (ram (Toy.with_dtb 64))) 4)
  /\ exists b0 b1 b2 b3,
       Field b0 b1 b2 b3 (uint8mem (ram (PatchKernel 36 (Toy.with_dtb 64)))) 4
       /\ BE32 b0 b1 b2 b3 = 63 * 0x100000.
Proof.
  assert (4 < 36)%nat as L by lia.
  assert (Marker (uint8mem (ram (Toy.with_dtb 64))) 4) as M
    by (unfold Marker; evaluated).
  assert (Placeholder (uint8mem (ram (Toy.with_dtb 64))) 4) as P
    by (unfold Placeholder, Field; evaluated).
  destruct (PatchKernel_field_is_the_size_in_bytes 36 (Toy.with_dtb 64) 4 L M P)
    as (b0&b1&b2&b3&F&_&E).
  split; [auto|]. exists b0, b1, b2, b3. split; [exact F|].
  assert (memorysize (Toy.with_dtb 64) = 63) as Ms by (vm_compute; reflexivity).
  rewrite Ms in E. apply E. lia.
Defined.



(** X15 on the machine with a wake left over: the third idle period
    budgets 1975000 cycles and keeps the handle 2; the wake 1 fires and
    advances the clock by its own 1375000 cycles, and the wake 2 stays
    pending while the system runs. *)
Lemma any_pending_wake_witness :
  (status Toy.stale = SYSTEM_HALT /\ pending 1 Toy.stale = Some (mkWake 69%float 1375000))
  /\ idletimeouthandle Toy.stale = Some 2%nat /\ idlemaxwait Toy.stale = 1975000
  /\ exists s1,
       fire 1 Toy.stale = MainLoop s1
       /\ status s1 = SYSTEM_RUN
       /\ calls s1 = CpuProgressTime 1375000 :: HostFire 1 :: calls Toy.stale
       /\ pending 2 s1 = Some (mkWake 99%float 1975000).
Proof.
  assert (status Toy.stale = SYSTEM_HALT) as Hs by (vm_compute; reflexivity).
  assert (pending 1 Toy.stale = Some (mkWake 69%float 1375000)) as Hp
    by (vm_compute; reflexivity).
  assert (pending 2 Toy.stale = Some (mkWake 99%float 1975000)) as Hk
    by (vm_compute; reflexivity).
  destruct (any_pending_wake_ends_the_idle_period 1 _ Toy.stale Hs Hp)
    as (s1&F&R&C&_&_&_&_&O).
  split; [split; [exact Hs|exact Hp]|].
  split; [vm_compute; reflexivity|]. split; [vm_compute; reflexivity|].
  exists s1. split; [exact F|]. split; [exact R|]. split; [exact C|].
  rewrite (O 2%nat) by discriminate. exact Hk.
Defined.

(** X16 on the booted machine, queried twice. *)
Lemma telemetry_witness :
  Forall (fun e => zeroes_ips e = false \/ e = EvGetIPS)
    [EvExecute; EvGetIPS; EvExecute; EvExecute; EvGetIPS; EvRaiseInterrupt 2]
  /\ (reported (calls (run [EvExecute; EvGetIPS; EvExecute; EvExecute; EvGetIPS;
                            EvRaiseInterrupt 2] Toy.booted))
      - reported (calls Toy.booted))
     + ips (run [EvExecute; EvGetIPS; EvExecute; EvExecute; EvGetIPS; EvRaiseInterrupt 2]
              Toy.booted)
     = ips Toy.booted
       + (stepped (calls (run [EvExecute; EvGetIPS; EvExecute; EvExecute; EvGetIPS;
                               EvRaiseInterrupt 2] Toy.booted))
          - stepped (calls Toy.booted)).
Proof.
  assert (Forall (fun e => zeroes_ips e = false \/ e = EvGetIPS)
            [EvExecute; EvGetIPS; EvExecute; EvExecute; EvGetIPS; EvRaiseInterrupt 2]) as Hf.
  { repeat constructor; (left; reflexivity) || (right; reflexivity). }
  split; [exact Hf|].
  exact (telemetry_accounts_for_every_step _ Toy.booted Hf).
Defined.

Example telemetry_values :
  reported (calls (run [EvExecute; EvGetIPS; EvExecute; EvExecute; EvGetIPS;
                        EvRaiseInterrupt 2] Toy.booted)) = 2503
  /\ ips (run [EvExecute; EvGetIPS; EvExecute; EvExecute; EvGetIPS; EvRaiseInterrupt 2]
            Toy.booted) = 1001
  /\ stepped (calls (run [EvExecute; EvGetIPS; EvExecute; EvExecute; EvGetIPS;
                          EvRaiseInterrupt 2] Toy.booted)) = 3504.
Proof. evaluated. Qed.


End FurtherExamples.

Section ClockSetBack.

#[local] Existing Instances Toy.cpu_contract Toy.timer_contract Toy.devices_contract
  Toy.clock_set_back.

(** X8 on a host whose clock is set back: idle entry read 4940 ms,
    the raise reads 4910 ms, and the CPU clock is moved by
    -30 * 20000 cycles. *)
Lemma early_wake_witness :
  (status Toy.idle_set_back = SYSTEM_HALT
   /\ utils_GetMilliseconds (clockreads Toy.idle_set_back) < idletime Toy.idle_set_back
   /\ 0 < ticksperms Toy.idle_set_back /\ 0 <= idlemaxwait Toy.idle_set_back)
  /\ elapsedCycles Toy.idle_set_back = -600000
  /\ In (CpuProgressTime (-600000)) (calls (RaiseInterrupt 2 Toy.idle_set_back)).
Proof.
  assert (status Toy.idle_set_back = SYSTEM_HALT) as Hs by (vm_compute; reflexivity).
  assert (utils_GetMilliseconds (clockreads Toy.idle_set_back) < idletime Toy.idle_set_back)
    as Hc by (vm_compute; reflexivity).
  assert (0 < ticksperms Toy.idle_set_back) as Ht by (vm_compute; reflexivity).
  assert (0 <= idlemaxwait Toy.idle_set_back) as Hm by (vm_compute; discriminate).
  destruct (early_wake_is_not_clamped_below 2 Toy.idle_set_back Hs Hc Ht Hm) as (_&_&I).
  assert (elapsedCycles Toy.idle_set_back = -600000) as E by (vm_compute; reflexivity).
  split; [auto|]. split; [exact E|]. rewrite <- E. exact I.
Defined.

End ClockSetBack.
